(** * venice_image_gen.py: a shallow embedding of the aspect-ratio resolver,
    the request builder, the file persister and the CLI driver.

    Strings are sequences of code points below 256 (Stdlib [ascii] read as
    Latin-1).  Python floats are the kernel's binary64 floats.  Python [int]s
    are [Z]. *)

From Stdlib Require Import ZArith String Ascii List Bool Lia.
From Stdlib Require Import Floats.
From Stdlib Require Import DecimalString DecimalNat.
Import ListNotations.
Open Scope string_scope.
Open Scope Z_scope.
Set Warnings "-register-all".

(** ** Python exceptions and results *)

Inductive py_exc : Type :=
| ValueError (msg : string)
| ZeroDivisionError
| OverflowError
| AttributeError
| TypeError
| KeyError
| IndexError.

Inductive py_result (A : Type) : Type :=
| PyOk (a : A)
| PyErr (e : py_exc).
Arguments PyOk {A} a.
Arguments PyErr {A} e.

Definition py_bind {A B} (m : py_result A) (k : A -> py_result B) : py_result B :=
  match m with
  | PyOk a => k a
  | PyErr e => PyErr e
  end.

Notation "x <-? m ;; k" := (py_bind m (fun x => k))
  (at level 61, m at next level, right associativity).

(** ** Characters and strings *)

Definition code (c : ascii) : nat := nat_of_ascii c.

(** [str.lower] on Latin-1: A-Z and the upper-case letters 0xC0-0xDE
    (except the multiplication sign 0xD7) move down by 32. *)
Definition py_lower_char (c : ascii) : ascii :=
  let n := code c in
  if ((65 <=? n) && (n <=? 90))%nat
     || ((192 <=? n) && (n <=? 222) && negb (n =? 215))%nat
  then ascii_of_nat (n + 32) else c.

Fixpoint py_lower (s : string) : string :=
  match s with
  | EmptyString => EmptyString
  | String c s' => String (py_lower_char c) (py_lower s')
  end.

(** [sub in s] for a one-character [sub]. *)
Fixpoint str_contains (c : ascii) (s : string) : bool :=
  match s with
  | EmptyString => false
  | String d s' => Ascii.eqb c d || str_contains c s'
  end.

(** [s.split(sep)] for a one-character separator. *)
Fixpoint py_split (sep : ascii) (s : string) : list string :=
  match s with
  | EmptyString => [EmptyString]
  | String c s' =>
      if Ascii.eqb c sep then EmptyString :: py_split sep s'
      else match py_split sep s' with
           | p :: ps => String c p :: ps
           | [] => [String c EmptyString]
           end
  end.

Definition is_digit (c : ascii) : bool :=
  ((48 <=? code c) && (code c <=? 57))%nat.

Definition digit_val (c : ascii) : Z := Z.of_nat (code c - 48).

(** ** Python's [float(str)] *)

Section PyFloat.
Local Open Scope float_scope.

(** Correctly rounded (to nearest, ties to even) binary64 value of
    [p / q] for [p >= 0], [q > 0], with the sign [neg]; this is the rounding
    CPython's [_Py_dg_strtod] and int true division perform. *)
Definition binary64_of_ratio (neg : bool) (p q : Z) : float :=
  let szero := if neg then neg_zero else zero in
  if (p <=? 0)%Z then szero else
  let t0 := (Z.log2 p - Z.log2 q)%Z in
  let t := if (q * 2 ^ Z.max 0 t0 <=? p * 2 ^ Z.max 0 (- t0))%Z
           then t0 else (t0 - 1)%Z in
  let e := Z.max (t - 52) (-1074) in
  let num := (p * 2 ^ Z.max 0 (- e))%Z in
  let den := (q * 2 ^ Z.max 0 e)%Z in
  let m := (num / den)%Z in
  let r := (num mod den)%Z in
  let m1 := if (den <? 2 * r)%Z || ((2 * r =? den)%Z && Z.odd m)
            then (m + 1)%Z else m in
  let '(m2, e2) := if (m1 =? 2 ^ 53)%Z then ((2 ^ 52)%Z, (e + 1)%Z) else (m1, e) in
  if (m2 =? 0)%Z then szero
  else if (971 <? e2)%Z then (if neg then neg_infinity else infinity)
  else SF2Prim (S754_finite neg (Z.to_pos m2) e2).

(** Value of the decimal [M * 10^E]; magnitudes far outside the binary64
    range are cut short (they round to 0 or overflow to infinity). *)
Definition binary64_of_decimal (neg : bool) (M : Z) (ndigits : Z) (E : Z) : float :=
  if (M =? 0)%Z then (if neg then neg_zero else zero)
  else if (310 <? E)%Z then (if neg then neg_infinity else infinity)
  else if (ndigits + E <? -330)%Z then (if neg then neg_zero else zero)
  else if (0 <=? E)%Z then binary64_of_ratio neg (M * 10 ^ E) 1
  else binary64_of_ratio neg M (10 ^ (- E)).

End PyFloat.

(** [_PyUnicode_TransformDecimalAndSpaceToASCII]: code points below 127 are
    kept, the Unicode spaces NEL (0x85) and NBSP (0xA0) become a space, any
    other character becomes ['?'] (and the conversion fails). *)
Definition transform_char (c : ascii) : ascii :=
  let n := code c in
  if (n <? 127)%nat then c
  else if ((n =? 133) || (n =? 160))%nat then " "%char
  else "?"%char.

(** [_Py_string_to_number_with_underscores]: an underscore must follow a
    digit and precede a digit; the underscores are then dropped. *)
Fixpoint drop_underscores (prev : option ascii) (s : list ascii) : option (list ascii) :=
  match s with
  | [] =>
      match prev with
      | Some "_"%char => None
      | _ => Some []
      end
  | c :: s' =>
      if Ascii.eqb c "_" then
        match prev with
        | Some p => if is_digit p then drop_underscores (Some c) s' else None
        | None => None
        end
      else
        match prev with
        | Some "_"%char => if is_digit c then option_map (cons c) (drop_underscores (Some c) s') else None
        | _ => option_map (cons c) (drop_underscores (Some c) s')
        end
  end.

(** [Py_ISSPACE]: the ASCII white space of the C locale. *)
Definition py_isspace (c : ascii) : bool :=
  let n := code c in ((9 <=? n) && (n <=? 13))%nat || (n =? 32)%nat.

Fixpoint strip_left (s : list ascii) : list ascii :=
  match s with
  | c :: s' => if py_isspace c then strip_left s' else s
  | [] => []
  end.

Definition py_strip (s : list ascii) : list ascii :=
  rev (strip_left (rev (strip_left s))).

Definition lower_list (s : list ascii) : list ascii := map py_lower_char s.

(** Optional sign. *)
Definition take_sign (s : list ascii) : bool * list ascii :=
  match s with
  | "-"%char :: s' => (true, s')
  | "+"%char :: s' => (false, s')
  | _ => (false, s)
  end.

Fixpoint take_digits (s : list ascii) : list ascii * list ascii :=
  match s with
  | c :: s' =>
      if is_digit c then let '(ds, r) := take_digits s' in (c :: ds, r) else ([], s)
  | [] => ([], [])
  end.

Definition digits_value (ds : list ascii) : Z :=
  fold_left (fun acc c => acc * 10 + digit_val c) ds 0.

(** [_Py_parse_inf_or_nan]. *)
Definition parse_inf_or_nan (s : list ascii) : option float :=
  let '(neg, r) := take_sign s in
  let r' := lower_list r in
  let w := string_of_list_ascii r' in
  if String.eqb w "inf" || String.eqb w "infinity"
  then Some (if neg then neg_infinity else infinity)
  else if String.eqb w "nan" then Some (if neg then (- nan)%float else nan)
  else None.

(** [_Py_dg_strtod] on the whole (stripped) text:
    [[+-]? (d+ [. d*] | . d+) ([eE] [+-]? d+)?]. *)
Definition parse_decimal (s : list ascii) : option float :=
  let '(neg, r0) := take_sign s in
  let '(ip, r1) := take_digits r0 in
  let '(fp, r2) := match r1 with
                   | "."%char :: r => take_digits r
                   | _ => ([], r1)
                   end in
  match (ip ++ fp)%list with
  | [] => None
  | mant =>
      let exp :=
        match r2 with
        | [] => Some 0
        | e :: r3 =>
            if Ascii.eqb e "e" || Ascii.eqb e "E" then
              let '(eneg, r4) := take_sign r3 in
              match take_digits r4 with
              | ((_ :: _) as ed, []) =>
                  Some (if eneg then - digits_value ed else digits_value ed)
              | _ => None
              end
            else None
        end in
      match exp with
      | Some x =>
          Some (binary64_of_decimal neg (digits_value mant)
                  (Z.of_nat (length mant)) (x - Z.of_nat (length fp)))
      | None => None
      end
  end.

(** [float(s)] for a [str] argument; [ValueError] when the text is not a
    float literal. *)
Definition py_float (s : string) : py_result float :=
  let t := map transform_char (list_ascii_of_string s) in
  let bad := PyErr (ValueError ("could not convert string to float: " ++ s)) in
  match drop_underscores None t with
  | None => bad
  | Some u =>
      let v := py_strip u in
      match parse_inf_or_nan v with
      | Some f => PyOk f
      | None =>
          match parse_decimal v with
          | Some f => PyOk f
          | None => bad
          end
      end
  end.

(** [int(x)] for a float [x]: truncation toward zero. *)
Definition py_int_of_float (f : float) : py_result Z :=
  match Prim2SF f with
  | S754_nan => PyErr (ValueError "cannot convert float NaN to integer")
  | S754_infinity _ => PyErr OverflowError
  | S754_zero _ => PyOk 0
  | S754_finite s m e =>
      let a := if 0 <=? e then Zpos m * 2 ^ e else Zpos m / 2 ^ (- e) in
      PyOk (if s then - a else a)
  end.

(** Python's [x / y] on floats. *)
Definition py_fdiv (x y : float) : py_result float :=
  if PrimFloat.eqb y zero then PyErr ZeroDivisionError else PyOk (PrimFloat.div x y).

(** [float(n)] for a small int. *)
Definition float_of_Z (n : Z) : float := binary64_of_ratio (n <? 0) (Z.abs n) 1.

(** ** The aspect-ratio resolver *)

Fixpoint dict_lookup {V : Type} (k : string) (d : list (string * V)) : option V :=
  match d with
  | [] => None
  | (k', v) :: d' => if String.eqb k k' then Some v else dict_lookup k d'
  end.

(** [VeniceImageGenerator.ASPECT_RATIOS]. *)
Definition ASPECT_RATIOS : list (string * (Z * Z)) :=
  [ ("square", (1024, 1024));
    ("1:1", (1024, 1024));
    ("landscape", (1264, 848));
    ("3:2", (1264, 848));
    ("cinema", (1280, 720));
    ("16:9", (1280, 720));
    ("tall", (720, 1280));
    ("9:16", (720, 1280));
    ("portrait", (848, 1264));
    ("2:3", (848, 1264));
    ("instagram", (1011, 1264));
    ("4:5", (1011, 1264)) ].

(** [w_ratio, h_ratio = map(float, parts)]: the lazy map is consumed by the
    unpacking, which fails with [ValueError] unless there are two items. *)
Definition unpack_two_floats (parts : list string) : py_result (float * float) :=
  match parts with
  | a :: b :: rest =>
      fa <-? py_float a ;;
      fb <-? py_float b ;;
      match rest with
      | [] => PyOk (fa, fb)
      | c :: _ =>
          _ <-? py_float c ;;
          PyErr (ValueError "too many values to unpack (expected 2)")
      end
  | [a] =>
      _ <-? py_float a ;;
      PyErr (ValueError "not enough values to unpack (expected 2, got 1)")
  | [] => PyErr (ValueError "not enough values to unpack (expected 2, got 0)")
  end.

(** The body of the [try] block of [parse_aspect_ratio]. *)
Definition custom_ratio (ar_string : string) : py_result (Z * Z) :=
  r <-? unpack_two_floats (py_split ":" ar_string) ;;
  let '(w_ratio, h_ratio) := r in
  let base_size := 1024 in
  dims <-? (if PrimFloat.leb h_ratio w_ratio then
              q <-? py_fdiv (PrimFloat.mul (float_of_Z base_size) h_ratio) w_ratio ;;
              height <-? py_int_of_float q ;;
              PyOk (base_size, height)
            else
              q <-? py_fdiv (PrimFloat.mul (float_of_Z base_size) w_ratio) h_ratio ;;
              width <-? py_int_of_float q ;;
              PyOk (width, base_size)) ;;
  let '(width, height) := dims in
  let width := ((width + 7) / 8) * 8 in
  let height := ((height + 7) / 8) * 8 in
  PyOk (width, height).

(** [parse_aspect_ratio]: a [ValueError] raised inside the [try] block is
    replaced by the [Invalid aspect ratio] one; other exceptions escape. *)
Definition parse_aspect_ratio (ar_string : string) : py_result (Z * Z) :=
  let ar_lower := py_lower ar_string in
  let invalid := PyErr (ValueError ("Invalid aspect ratio: " ++ ar_string)) in
  match dict_lookup ar_lower ASPECT_RATIOS with
  | Some wh => PyOk wh
  | None =>
      if str_contains ":" ar_string then
        match custom_ratio ar_string with
        | PyErr (ValueError _) => invalid
        | r => r
        end
      else invalid
  end.

(** ** Decoded JSON values and the values passed as keyword arguments *)

Inductive json : Type :=
| JNull
| JBool (b : bool)
| JInt (z : Z)
| JFloat (f : float)
| JStr (s : string)
| JArr (l : list json)
| JObj (l : list (string * json)).

Inductive pyval : Type :=
| PStr (s : string)
| PInt (z : Z)
| PFloat (f : float)
| PBool (b : bool)
| PNone.

(** [d[k] = v] on an insertion-ordered dict. *)
Fixpoint dict_set {V : Type} (k : string) (v : V) (d : list (string * V)) : list (string * V) :=
  match d with
  | [] => [(k, v)]
  | (k', v') :: d' => if String.eqb k k' then (k, v) :: d' else (k', v') :: dict_set k v d'
  end.

Definition kw_get (kwargs : list (string * pyval)) (k : string) (default : pyval) : pyval :=
  match dict_lookup k kwargs with
  | Some v => v
  | None => default
  end.

Definition is_none (v : pyval) : bool :=
  match v with PNone => true | _ => false end.

(** ** The request builder ([generate_image], lines 77-95) *)

Definition optional_params : list string :=
  ["negative_prompt"; "width"; "height"; "steps"; "cfg_scale"; "seed"; "style_preset"].

Definition build_payload (model prompt : string) (kwargs : list (string * pyval))
  : list (string * pyval) :=
  let payload :=
    [ ("model", PStr model);
      ("prompt", PStr prompt);
      ("format", kw_get kwargs "format" (PStr "jpeg"));
      ("hide_watermark", PBool true);
      ("safe_mode", kw_get kwargs "safe_mode" (PBool false));
      ("return_binary", PBool false) ] in
  fold_left
    (fun payload param =>
       match dict_lookup param kwargs with
       | Some v => if is_none v then payload else dict_set param v payload
       | None => payload
       end)
    optional_params payload.

(** ** pathlib (PurePosixPath) *)

Definition path_parts (s : string) : list string :=
  filter (fun p => negb (String.eqb p "" || String.eqb p ".")) (py_split "/" s).

Definition path_root (s : string) : string :=
  match s with
  | String c1 s1 =>
      if Ascii.eqb c1 "/" then
        match s1 with
        | String c2 s2 =>
            if Ascii.eqb c2 "/" then
              match s2 with
              | String c3 _ => if Ascii.eqb c3 "/" then "/" else "//"
              | EmptyString => "//"
              end
            else "/"
        | EmptyString => "/"
        end
      else ""
  | EmptyString => ""
  end.

Fixpoint join (sep : string) (l : list string) : string :=
  match l with
  | [] => ""
  | [x] => x
  | x :: l' => x ++ sep ++ join sep l'
  end.

(** [str(Path(s))]. *)
Definition path_str (s : string) : string :=
  match path_root s, path_parts s with
  | "", [] => "."
  | r, ps => r ++ join "/" ps
  end.

(** [Path(s).name]. *)
Definition path_name (s : string) : string :=
  last (path_parts s) "".

(** [name.rfind('.')]. *)
Fixpoint rfind_dot_from (i : nat) (s : string) (acc : option nat) : option nat :=
  match s with
  | EmptyString => acc
  | String c s' => rfind_dot_from (S i) s' (if Ascii.eqb c "." then Some i else acc)
  end.

Definition rfind_dot (s : string) : option nat := rfind_dot_from 0 s None.

(** [Path(s).suffix] and [Path(s).stem]: a dot at index [i] counts when
    [0 < i < len(name) - 1]. *)
Definition suffix_dot (name : string) : option nat :=
  match rfind_dot name with
  | Some i => if ((0 <? i) && (i <? String.length name - 1))%nat then Some i else None
  | None => None
  end.

Definition path_suffix (s : string) : string :=
  let name := path_name s in
  match suffix_dot name with
  | Some i => substring i (String.length name - i) name
  | None => ""
  end.

Definition path_stem (s : string) : string :=
  let name := path_name s in
  match suffix_dot name with
  | Some i => substring 0 i name
  | None => name
  end.

(** [Path(s).exists()] against the set of existing paths, written in
    pathlib's normal form. *)
Definition path_exists (files : list string) (s : string) : bool :=
  existsb (String.eqb (path_str s)) files.

(** [str(counter)]. *)
Definition str_of_nat (n : nat) : string := NilZero.string_of_uint (Nat.to_uint n).

(** ** The collision loop of [save_image] (lines 122-128) *)

Definition candidate (original : string) (counter : nat) : string :=
  let name_part := path_stem original in
  let ext_part := path_suffix original in
  name_part ++ "_" ++ str_of_nat counter ++ ext_part.

Fixpoint avoid_collision (fuel : nat) (files : list string) (original filename : string)
    (counter : nat) : option string :=
  match fuel with
  | O => None
  | S fuel' =>
      if path_exists files filename
      then avoid_collision fuel' files original (candidate original counter) (S counter)
      else Some filename
  end.

(** The loop runs at most [length files + 2] times
    ([avoid_collision_terminates] below): the fuel is never exhausted, and the
    [None] branch of [collision_free_name] is unreachable. *)
Definition collision_free_name (files : list string) (filename : string) : string :=
  match avoid_collision (length files + 2) files filename filename 1 with
  | Some f => f
  | None => filename
  end.

(** ** Effects of the CLI driver *)

Inductive event : Type :=
| Stdout (s : string)
| Stdout_help                          (** argparse's help text *)
| Stdout_json_dump (j : json)          (** [print(json.dumps(data, indent=2))] *)
| Stdout_timing (seconds : float)      (** [print(f"Generation completed in {t:.2f} seconds")] *)
| Stderr (s : string)
| Stderr_exc (context : string)        (** [print(f"{context}: {e}", file=sys.stderr)] *)
| Stderr_usage (msg : string)          (** [parser.error(msg)]: usage and [error: msg] *)
| Stderr_traceback (e : py_exc)        (** an uncaught exception *)
| Http_get_models                      (** [GET {BASE_URL}/models?type=image] *)
| Http_post_generate (payload : list (string * pyval))  (** [POST {BASE_URL}/image/generate] *)
| File_write (path : string) (data : list Byte.byte).

Inductive outcome (A : Type) : Type :=
| Done (a : A)
| Exit (status : Z)
| Raised (e : py_exc).
Arguments Done {A} a.
Arguments Exit {A} status.
Arguments Raised {A} e.

(** Output written so far, and how the computation ended. *)
Definition M (A : Type) : Type := (list event * outcome A)%type.

Definition ret {A} (a : A) : M A := ([], Done a).

Definition bind {A B} (m : M A) (k : A -> M B) : M B :=
  match m with
  | (t, Done a) => let '(t', r) := k a in ((t ++ t')%list, r)
  | (t, Exit c) => (t, Exit c)
  | (t, Raised e) => (t, Raised e)
  end.

Notation "x <- m ;; k" := (bind m (fun x => k))
  (at level 61, m at next level, right associativity).
Notation "m ;;; k" := (bind m (fun _ => k))
  (at level 61, right associativity).

Definition emit (e : event) : M unit := ([e], Done tt).
Definition sys_exit {A} (status : Z) : M A := ([], Exit status).
Definition lift {A} (r : py_result A) : M A :=
  match r with
  | PyOk a => ret a
  | PyErr e => ([], Raised e)
  end.

(** [parser.error(msg)] prints the usage and the message and exits with
    status 2. *)
Definition parser_error {A} (msg : string) : M A := ([Stderr_usage msg], Exit 2).

Fixpoint for_each {A} (l : list A) (body : A -> M unit) : M unit :=
  match l with
  | [] => ret tt
  | x :: l' => body x ;;; for_each l' body
  end.

(** ** Python operations on decoded JSON *)

Definition json_truthy (j : json) : bool :=
  match j with
  | JNull => false
  | JBool b => b
  | JInt z => negb (z =? 0)
  | JFloat f => negb (PrimFloat.eqb f zero)
  | JStr s => negb (String.eqb s "")
  | JArr l => match l with [] => false | _ => true end
  | JObj l => match l with [] => false | _ => true end
  end.

(** [d.get(k, default)]: [d] must be a dict. *)
Definition py_get (d : json) (k : string) (default : json) : M json :=
  match d with
  | JObj l => ret (match dict_lookup k l with Some v => v | None => default end)
  | _ => lift (PyErr AttributeError)
  end.

(** [x[0]]. *)
Definition py_index0 (j : json) : M json :=
  match j with
  | JArr (x :: _) => ret x
  | JArr [] => lift (PyErr IndexError)
  | JStr (String c _) => ret (JStr (String c EmptyString))
  | JStr EmptyString => lift (PyErr IndexError)
  | JObj _ => lift (PyErr KeyError)
  | _ => lift (PyErr TypeError)
  end.

(** [for x in j]: lists, and the keys of a dict or the characters of a str. *)
Fixpoint chars_of (s : string) : list json :=
  match s with
  | EmptyString => []
  | String c s' => JStr (String c EmptyString) :: chars_of s'
  end.

Definition py_iter (j : json) : py_result (list json) :=
  match j with
  | JArr l => PyOk l
  | JObj l => PyOk (map (fun kv => JStr (fst kv)) l)
  | JStr s => PyOk (chars_of s)
  | _ => PyErr TypeError
  end.

Fixpoint all_strs (l : list json) : py_result (list string) :=
  match l with
  | [] => PyOk []
  | JStr s :: l' => r <-? all_strs l' ;; PyOk (s :: r)
  | _ :: _ => PyErr TypeError
  end.

(** [x / 1000] for the timing total: int true division is correctly
    rounded and raises OverflowError when the result is too large for a
    float; float division never raises here. *)
Definition py_div_1000 (j : json) : py_result float :=
  match j with
  | JInt z =>
      let q := binary64_of_ratio (z <? 0) (Z.abs z) 1000 in
      match Prim2SF q with
      | S754_infinity _ => PyErr OverflowError
      | _ => PyOk q
      end
  | JBool b => PyOk (binary64_of_ratio false (if b then 1 else 0) 1000)
  | JFloat f => PyOk (PrimFloat.div f (float_of_Z 1000))
  | _ => PyErr TypeError
  end.

(** ** The world the CLI runs in *)

Record http_response : Type := {
  resp_ok : bool;              (** [bool(response)], i.e. [response.ok] *)
  resp_json : option json;     (** [response.json()], [None] when it raises *)
  resp_text : string           (** [response.text] *)
}.

(** The outcome of [requests.get/post], [raise_for_status()] and
    [response.json()]. *)
Inductive http_outcome : Type :=
| Http_failed (resp : option http_response)   (** a [RequestException] and its [response] *)
| Http_ok (body : json).

(** [args] as [parser.parse_args()] returns it. *)
Record args : Type := {
  list_models : bool;
  verbose : bool;
  prompt : option string;
  model : string;
  negative_prompt : option string;
  width : option Z;
  height : option Z;
  aspect_ratio : option string;
  steps : option Z;
  cfg_scale : option float;
  seed : option Z;
  style_preset : option string;
  format : string;
  output : option string;
  safe_mode : bool
}.

Inductive argv_outcome : Type :=
| Argv_parsed (a : args)
| Argv_usage_error (msg : string)    (** argparse rejects the command line: exit 2 *)
| Argv_help.                         (** [--help]: help printed, exit 0 *)

Record world : Type := {
  w_api_key : option string;                      (** [os.getenv("VENICE_API_KEY")] *)
  w_argv : argv_outcome;
  w_models_response : http_outcome;
  w_generate_response : http_outcome;
  w_files : list string;                          (** existing paths, pathlib normal form *)
  w_b64decode : string -> option (list Byte.byte); (** [base64.b64decode]; [None]: binascii.Error *)
  w_can_write : string -> bool                    (** [open(path, 'wb')] and [write] succeed *)
}.

Definition truthy_str (o : option string) : bool :=
  match o with Some s => negb (String.eqb s "") | None => false end.
Definition truthy_int (o : option Z) : bool :=
  match o with Some z => negb (z =? 0) | None => false end.
Definition truthy_float (o : option float) : bool :=
  match o with Some f => negb (PrimFloat.eqb f zero) | None => false end.

Section Cli.

(** Python's [str()] of a decoded JSON value (used by the f-strings). *)
Variable py_str : json -> string.

(** [VeniceImageGenerator.list_models]. *)
Definition list_models_cmd (w : world) (verbose : bool) : M unit :=
  emit Http_get_models ;;;
  match w_models_response w with
  | Http_failed _ => emit (Stderr_exc "Error fetching models") ;;; sys_exit 1
  | Http_ok data =>
      if verbose then emit (Stdout_json_dump data)
      else
        emit (Stdout "Available models:") ;;;
        models <- py_get data "data" (JArr []) ;;
        items <- lift (py_iter models) ;;
        for_each items (fun m =>
          model_id <- py_get m "id" (JStr "unknown") ;;
          spec <- py_get m "model_spec" (JObj []) ;;
          traits <- py_get spec "traits" (JArr []) ;;
          traits_str <- (if json_truthy traits then
                           parts <- lift (py_iter traits) ;;
                           names <- lift (all_strs parts) ;;
                           ret (" (" ++ join ", " names ++ ")")
                         else ret "") ;;
          emit (Stdout ("  - " ++ py_str model_id ++ traits_str)))
  end.

(** [VeniceImageGenerator.generate_image]: the payload is built, one POST is
    made, and a failure ends the process with status 1. *)
Definition generate_image (w : world) (prompt model : string)
    (kwargs : list (string * pyval)) : M json :=
  let payload := build_payload model prompt kwargs in
  emit (Http_post_generate payload) ;;;
  match w_generate_response w with
  | Http_ok j => ret j
  | Http_failed resp =>
      emit (Stderr_exc "Error generating image") ;;;
      (match resp with
       | Some r =>
           if resp_ok r then
             match resp_json r with
             | Some j => emit (Stderr ("API Error: " ++ py_str j))
             | None => emit (Stderr ("Response: " ++ resp_text r))
             end
           else ret tt
       | None => ret tt
       end) ;;;
      sys_exit 1
  end.

(** [base64.b64decode(base64_data)]: a non-str argument raises TypeError. *)
Definition b64decode (w : world) (j : json) : option (list Byte.byte) :=
  match j with
  | JStr s => w_b64decode w s
  | _ => None
  end.

(** [VeniceImageGenerator.save_image]. *)
Definition save_image (w : world) (base64_data : json) (output_path : option string)
    (image_id : json) (format_ext : string) : M string :=
  let filename :=
    if truthy_str output_path then match output_path with Some p => p | None => "" end
    else py_str image_id ++ "." ++ format_ext in
  let filename := collision_free_name (w_files w) filename in
  match b64decode w base64_data with
  | Some image_data =>
      if w_can_write w filename then emit (File_write filename image_data) ;;; ret filename
      else emit (Stderr_exc "Error saving image") ;;; sys_exit 1
  | None => emit (Stderr_exc "Error saving image") ;;; sys_exit 1
  end.

Definition PROMPT_REQUIRED : string :=
  "Prompt is required for image generation. Use --list-models to see available models.".
Definition AR_CONFLICT : string := "Cannot specify both --ar and --width/--height".

(** Lines 237-246: the dimensions sent with the request. *)
Definition resolve_dims (a : args) : M (option Z * option Z) :=
  let width := width a in
  let height := height a in
  match aspect_ratio a with
  | Some ar =>
      if truthy_str (Some ar) then
        if truthy_int width || truthy_int height then parser_error AR_CONFLICT
        else match parse_aspect_ratio ar with
             | PyOk (wd, ht) => ret (Some wd, Some ht)
             | PyErr (ValueError msg) => parser_error msg
             | PyErr e => lift (PyErr e)
             end
      else ret (width, height)
  | None => ret (width, height)
  end.

Definition add_str (k : string) (o : option string) (p : list (string * pyval)) :=
  match o with Some s => if truthy_str o then dict_set k (PStr s) p else p | None => p end.
Definition add_int (k : string) (o : option Z) (p : list (string * pyval)) :=
  match o with Some z => if truthy_int o then dict_set k (PInt z) p else p | None => p end.
Definition add_float (k : string) (o : option float) (p : list (string * pyval)) :=
  match o with Some f => if truthy_float o then dict_set k (PFloat f) p else p | None => p end.

(** Lines 249-267: [gen_params]; falsy values are left out. *)
Definition gen_params_of (a : args) (width height : option Z) : list (string * pyval) :=
  let p := [("format", PStr (format a)); ("safe_mode", PBool (safe_mode a))] in
  let p := add_str "negative_prompt" (negative_prompt a) p in
  let p := add_int "width" width p in
  let p := add_int "height" height p in
  let p := add_int "steps" (steps a) p in
  let p := add_float "cfg_scale" (cfg_scale a) p in
  let p := add_int "seed" (seed a) p in
  add_str "style_preset" (style_preset a) p.

(** Lines 232-291: image generation for parsed arguments. *)
Definition generate_cmd (w : world) (a : args) : M unit :=
  match prompt a with
  | Some pr =>
      if negb (truthy_str (Some pr)) then parser_error PROMPT_REQUIRED else
      dims <- resolve_dims a ;;
      let '(width, height) := dims in
      let gen_params := gen_params_of a width height in
      emit (Stdout ("Generating image with model '" ++ model a ++ "'...")) ;;;
      result <- generate_image w pr (model a) gen_params ;;
      images <- py_get result "images" (JArr []) ;;
      if negb (json_truthy images) then
        emit (Stderr "No images returned from API") ;;; sys_exit 1
      else
        image_id <- py_get result "id" (JStr "generated_image") ;;
        base64_data <- py_index0 images ;;
        filename <- save_image w base64_data (output a) image_id (format a) ;;
        emit (Stdout ("Image saved as: " ++ filename)) ;;;
        timing <- py_get result "timing" (JObj []) ;;
        if json_truthy timing then
          total <- py_get timing "total" (JInt 0) ;;
          total_time <- lift (py_div_1000 total) ;;
          emit (Stdout_timing total_time)
        else ret tt
  | None => parser_error PROMPT_REQUIRED
  end.

(** [main]. *)
Definition main (w : world) : M unit :=
  if negb (truthy_str (w_api_key w)) then
    emit (Stderr "Error: VENICE_API_KEY environment variable is required") ;;; sys_exit 1
  else
    match w_argv w with
    | Argv_usage_error msg => parser_error msg
    | Argv_help => emit Stdout_help ;;; sys_exit 0
    | Argv_parsed a =>
        if list_models a then list_models_cmd w (verbose a)
        else generate_cmd w a
    end.

(** The process: its output and its exit status (an uncaught exception
    prints a traceback and exits with 1). *)
Definition run_main (w : world) : list event * Z :=
  match main w with
  | (t, Done _) => (t, 0)
  | (t, Exit c) => (t, c)
  | (t, Raised e) => ((t ++ [Stderr_traceback e])%list, 1)
  end.

End Cli.

Definition is_network (e : event) : bool :=
  match e with
  | Http_get_models | Http_post_generate _ => true
  | _ => false
  end.

Definition is_file_write (e : event) : bool :=
  match e with File_write _ _ => true | _ => false end.

(** ** Helpers for stating properties of the CLI *)

Definition with_argv (w : world) (a : args) : world :=
  {| w_api_key := w_api_key w; w_argv := Argv_parsed a;
     w_models_response := w_models_response w; w_generate_response := w_generate_response w;
     w_files := w_files w; w_b64decode := w_b64decode w; w_can_write := w_can_write w |}.

Definition set_negative_prompt (a : args) (v : option string) : args :=
  {| list_models := list_models a; verbose := verbose a; prompt := prompt a; model := model a;
     negative_prompt := v; width := width a; height := height a;
     aspect_ratio := aspect_ratio a; steps := steps a; cfg_scale := cfg_scale a;
     seed := seed a; style_preset := style_preset a; format := format a;
     output := output a; safe_mode := safe_mode a |}.
Definition set_width (a : args) (v : option Z) : args :=
  {| list_models := list_models a; verbose := verbose a; prompt := prompt a; model := model a;
     negative_prompt := negative_prompt a; width := v; height := height a;
     aspect_ratio := aspect_ratio a; steps := steps a; cfg_scale := cfg_scale a;
     seed := seed a; style_preset := style_preset a; format := format a;
     output := output a; safe_mode := safe_mode a |}.
Definition set_height (a : args) (v : option Z) : args :=
  {| list_models := list_models a; verbose := verbose a; prompt := prompt a; model := model a;
     negative_prompt := negative_prompt a; width := width a; height := v;
     aspect_ratio := aspect_ratio a; steps := steps a; cfg_scale := cfg_scale a;
     seed := seed a; style_preset := style_preset a; format := format a;
     output := output a; safe_mode := safe_mode a |}.
Definition set_steps (a : args) (v : option Z) : args :=
  {| list_models := list_models a; verbose := verbose a; prompt := prompt a; model := model a;
     negative_prompt := negative_prompt a; width := width a; height := height a;
     aspect_ratio := aspect_ratio a; steps := v; cfg_scale := cfg_scale a;
     seed := seed a; style_preset := style_preset a; format := format a;
     output := output a; safe_mode := safe_mode a |}.
Definition set_cfg_scale (a : args) (v : option float) : args :=
  {| list_models := list_models a; verbose := verbose a; prompt := prompt a; model := model a;
     negative_prompt := negative_prompt a; width := width a; height := height a;
     aspect_ratio := aspect_ratio a; steps := steps a; cfg_scale := v;
     seed := seed a; style_preset := style_preset a; format := format a;
     output := output a; safe_mode := safe_mode a |}.
Definition set_seed (a : args) (v : option Z) : args :=
  {| list_models := list_models a; verbose := verbose a; prompt := prompt a; model := model a;
     negative_prompt := negative_prompt a; width := width a; height := height a;
     aspect_ratio := aspect_ratio a; steps := steps a; cfg_scale := cfg_scale a;
     seed := v; style_preset := style_preset a; format := format a;
     output := output a; safe_mode := safe_mode a |}.

(** The run gets past argument handling with prompt [pr] and dimensions
    [dims], and sends the generation request. *)
Definition reaches_request (w : world) (a : args) (pr : string) (dims : option Z * option Z) : Prop :=
  truthy_str (w_api_key w) = true /\ w_argv w = Argv_parsed a /\ list_models a = false /\
  prompt a = Some pr /\ truthy_str (Some pr) = true /\ resolve_dims a = ret dims.

(** The payload of the request such a run sends. *)
Definition request_payload (a : args) (pr : string) (dims : option Z * option Z) :=
  build_payload (model a) pr (gen_params_of a (fst dims) (snd dims)).

(** A concrete invocation: [venice_image_gen.py "a cat" --ar AR --width W
    --output OUT] with the key set, the API answering [resp], the files
    [files] present and every write succeeding. *)
Definition sample_args (ar : option string) (wd : option Z) (out : option string) : args :=
  {| list_models := false; verbose := false; prompt := Some "a cat"; model := "venice-sd35";
     negative_prompt := None; width := wd; height := None; aspect_ratio := ar;
     steps := None; cfg_scale := None; seed := None; style_preset := None;
     format := "jpeg"; output := out; safe_mode := false |}.

Definition sample_world (a : args) (resp : http_outcome) (files : list string) : world :=
  {| w_api_key := Some "key"; w_argv := Argv_parsed a;
     w_models_response := Http_ok (JObj []); w_generate_response := resp;
     w_files := files; w_b64decode := fun _ => Some [Byte.x00];
     w_can_write := fun _ => true |}.

(** [str()] on a JSON string is the string itself. *)
Definition str_of_json_string (j : json) : string :=
  match j with JStr s => s | _ => "" end.

Definition copy_optional (kwargs : list (string * pyval)) (payload : list (string * pyval))
    (param : string) : list (string * pyval) :=
  match dict_lookup param kwargs with
  | Some v => if is_none v then payload else dict_set param v payload
  | None => payload
  end.

(** What the copy loop leaves under key [k]. *)
Definition supplied (kwargs : list (string * pyval)) (k : string) : option pyval :=
  match dict_lookup k kwargs with
  | Some v => if is_none v then None else Some v
  | None => None
  end.

(** The exit statuses a computation can end with satisfy [P]. *)
Definition exits_with {A} (P : Z -> Prop) (m : M A) : Prop :=
  match m with (_, Exit c) => P c | _ => True end.

(** A computation that completes normally has written a file. *)
Definition done_writes {A} (m : M A) : Prop :=
  match m with (t, Done _) => exists f d, In (File_write f d) t | _ => True end.

(** The API answer carrying one base64 image. *)
Definition one_image : http_outcome := Http_ok (JObj [("images", JArr [JStr "aGk="])]).

(** [venice_image_gen.py "a cat" --output out/cat.png] with "out/cat.png" present. *)
Definition out_dir_world : world :=
  sample_world (sample_args None None (Some "out/cat.png")) one_image ["out/cat.png"].

(** [venice_image_gen.py "a cat" --ar square --width 512]. *)
Definition ar_width_world : world :=
  sample_world (sample_args (Some "square") (Some 512) None) one_image [].

(** [venice_image_gen.py "a cat"] answered with an empty [images]. *)
Definition no_image_world : world :=
  sample_world (sample_args None None None) (Http_ok (JObj [("images", JArr [])])) [].

(** [venice_image_gen.py "a cat" --ar 0:0]. *)
Definition zero_ratio_world : world :=
  sample_world (sample_args (Some "0:0") None None) one_image [].

(** At most [n] events of the trace of [m] satisfy [P]. *)
Definition count_at_most {A} (P : event -> bool) (n : nat) (m : M A) : Prop :=
  (length (filter P (fst m)) <= n)%nat.

Definition is_generate_request (e : event) : bool :=
  match e with Http_post_generate _ => true | _ => false end.

(** Lines 116-119: the name [save_image] starts the collision loop from. *)
Definition output_name (py_str : json -> string) (output_path : option string)
    (image_id : json) (format_ext : string) : string :=
  if truthy_str output_path then match output_path with Some p => p | None => "" end
  else py_str image_id ++ "." ++ format_ext.

(** The line [list_models] prints for a model with id [mid] and traits [ns]. *)
Definition model_line (py_str : json -> string) (mid : json) (ns : list string) : event :=
  Stdout ("  - " ++ py_str mid ++ match ns with [] => "" | _ => " (" ++ join ", " ns ++ ")" end).

(** The traits of a model dict [m] are the strings [ns]. *)
Definition model_traits (m : list (string * json)) (ns : list string) : Prop :=
  match dict_lookup "model_spec" m with
  | None => ns = []
  | Some (JObj sp) =>
      dict_lookup "traits" sp = Some (JArr (map JStr ns)) \/
      (dict_lookup "traits" sp = None /\ ns = [])
  | Some _ => False
  end.

(** [venice_image_gen.py --list-models "a cat" --output cat.png]. *)
Definition list_args : args :=
  {| list_models := true; verbose := false; prompt := Some "a cat"; model := "venice-sd35";
     negative_prompt := None; width := None; height := None; aspect_ratio := None;
     steps := None; cfg_scale := None; seed := None; style_preset := None;
     format := "jpeg"; output := Some "cat.png"; safe_mode := false |}.

Definition list_world : world := sample_world list_args one_image [].

Definition is_supplied (kwargs : list (string * pyval)) (k : string) : bool :=
  match supplied kwargs k with Some _ => true | None => false end.

(** [venice_image_gen.py --list-models] with two models listed. *)
Definition models_world : world :=
  {| w_api_key := Some "key"; w_argv := Argv_parsed list_args;
     w_models_response := Http_ok (JObj [("data", JArr
       [JObj [("id", JStr "flux-dev"); ("model_spec", JObj [("traits", JArr [JStr "fast"; JStr "hd"])])];
        JObj [("model_spec", JObj [])]])]);
     w_generate_response := one_image; w_files := [];
     w_b64decode := fun _ => Some [Byte.x00]; w_can_write := fun _ => true |}.

(** [venice_image_gen.py "a cat"] with the API answering an error status. *)
Definition http_error_world : world :=
  sample_world (sample_args None None None)
    (Http_failed (Some {| resp_ok := false; resp_json := Some (JStr "quota exceeded");
                          resp_text := "quota exceeded" |})) [].


(** * Properties of the aspect-ratio resolver *)

Lemma py_float_err s e : py_float s = PyErr e -> exists m, e = ValueError m.
Proof.
  unfold py_float.
  destruct (drop_underscores None _); [|intros H; inversion H; eauto].
  destruct (parse_inf_or_nan _); [discriminate|].
  destruct (parse_decimal _); [discriminate|].
  intros H; inversion H; eauto.
Qed.

Ltac float_err_tac :=
  match goal with
  | H : py_float _ = PyErr ?e |- _ => destruct (py_float_err _ _ H) as [? ->]; eauto
  end.

Lemma unpack_two_floats_err parts e :
  unpack_two_floats parts = PyErr e -> exists m, e = ValueError m.
Proof.
  destruct parts as [|a [|b rest]]; simpl.
  - intros H; inversion H; eauto.
  - destruct (py_float a) eqn:Ea; simpl; intros H; inversion H; subst; eauto; float_err_tac.
  - destruct (py_float a) eqn:Ea; simpl.
    2: { intros H; inversion H; subst; float_err_tac. }
    destruct (py_float b) eqn:Eb; simpl.
    2: { intros H; inversion H; subst; float_err_tac. }
    destruct rest as [|c rest]; [discriminate|].
    destruct (py_float c) eqn:Ec; simpl; intros H; inversion H; subst; eauto; float_err_tac.
Qed.

Lemma unpack_two_floats_ok parts fa fb :
  unpack_two_floats parts = PyOk (fa, fb) ->
  exists a b, parts = [a; b] /\ py_float a = PyOk fa /\ py_float b = PyOk fb.
Proof.
  destruct parts as [|a [|b rest]]; simpl; [discriminate| |].
  - destruct (py_float a); discriminate.
  - destruct (py_float a) eqn:Ea; simpl; [|discriminate].
    destruct (py_float b) eqn:Eb; simpl; [|discriminate].
    destruct rest as [|c rest].
    + intros H; inversion H; subst; eauto.
    + destruct (py_float c); discriminate.
Qed.

(** A custom token that the preset table does not know is decided by the
    [try] block alone. *)
Lemma parse_aspect_ratio_custom t :
  dict_lookup (py_lower t) ASPECT_RATIOS = None ->
  parse_aspect_ratio t =
    if str_contains ":" t then
      match custom_ratio t with
      | PyErr (ValueError _) => PyErr (ValueError ("Invalid aspect ratio: " ++ t))
      | r => r
      end
    else PyErr (ValueError ("Invalid aspect ratio: " ++ t)).
Proof. intros H; unfold parse_aspect_ratio; rewrite H; reflexivity. Qed.

Lemma parse_custom_ok t w h :
  dict_lookup (py_lower t) ASPECT_RATIOS = None ->
  parse_aspect_ratio t = PyOk (w, h) -> custom_ratio t = PyOk (w, h).
Proof.
  intros Hl; rewrite (parse_aspect_ratio_custom t Hl).
  destruct (str_contains ":" t); [|discriminate].
  destruct (custom_ratio t) as [r|[]]; congruence.
Qed.

Lemma ceil8_mod (n : Z) : ((n + 7) / 8 * 8) mod 8 = 0.
Proof. apply Z.mod_mul; lia. Qed.

Lemma custom_ratio_shape t w h :
  custom_ratio t = PyOk (w, h) ->
  (w = 1024 \/ h = 1024) /\ w mod 8 = 0 /\ h mod 8 = 0.
Proof.
  unfold custom_ratio.
  destruct (unpack_two_floats _) as [[wr hr]|e]; simpl; [|discriminate].
  destruct (PrimFloat.leb hr wr);
    (destruct (py_fdiv _ _) as [q|e]; simpl; [|discriminate]);
    (destruct (py_int_of_float q) as [n|e]; simpl; [|discriminate]);
    intros H; inversion H; subst; repeat split; try apply ceil8_mod; auto.
Qed.

Lemma py_split_no_sep c t : str_contains c t = false -> py_split c t = [t].
Proof.
  induction t as [|d t IH]; simpl; auto.
  intros H; apply orb_false_iff in H as [H1 H2].
  rewrite Ascii.eqb_sym, H1, (IH H2); reflexivity.
Qed.

Lemma split_two_contains c t a b : py_split c t = [a; b] -> str_contains c t = true.
Proof.
  intros H; destruct (str_contains c t) eqn:E; auto.
  rewrite (py_split_no_sep c t E) in H; discriminate.
Qed.

(** C2 (counterexample): for the custom token "9:5" the claimed height is the
    ceiling-to-8 of round(1024*5/9) = 569, that is 576, but the resolver
    truncates 568.88... to 568 and returns (1024, 568). *)
Lemma parse_aspect_ratio_9_5_truncates :
  dict_lookup (py_lower "9:5") ASPECT_RATIOS = None /\
  py_float "9" = PyOk 9%float /\ py_float "5" = PyOk 5%float /\
  (2 * 1024 * 5 + 9) / (2 * 9) = 569 /\
  parse_aspect_ratio "9:5" = PyOk (1024, 568) /\
  parse_aspect_ratio "9:5" <> PyOk (1024, (569 + 7) / 8 * 8).
Proof. repeat split; try reflexivity; vm_compute; discriminate. Qed.

(** C2 (amended): for a custom token "W:H" that is not a preset and whose two
    components parse as floats W and H, if W >= H the resolver returns width
    1024 and height ((n + 7) // 8) * 8 where n = int(1024 * H / W) is the
    float quotient truncated toward zero; if H > W it returns height 1024 and
    width ((n + 7) // 8) * 8 for n = int(1024 * W / H).  "4:3" gives
    (1024, 768). *)
Theorem parse_aspect_ratio_custom_dims :
  (forall t a b wr hr,
     dict_lookup (py_lower t) ASPECT_RATIOS = None ->
     py_split ":" t = [a; b] -> py_float a = PyOk wr -> py_float b = PyOk hr ->
     (PrimFloat.leb hr wr = true -> forall q n,
        py_fdiv (PrimFloat.mul (float_of_Z 1024) hr) wr = PyOk q ->
        py_int_of_float q = PyOk n ->
        parse_aspect_ratio t = PyOk (1024, (n + 7) / 8 * 8)) /\
     (PrimFloat.leb hr wr = false -> forall q n,
        py_fdiv (PrimFloat.mul (float_of_Z 1024) wr) hr = PyOk q ->
        py_int_of_float q = PyOk n ->
        parse_aspect_ratio t = PyOk ((n + 7) / 8 * 8, 1024))) /\
  parse_aspect_ratio "4:3" = PyOk (1024, 768).
Proof.
  split; [|reflexivity].
  intros t a b wr hr Hl Hs Ha Hb.
  rewrite (parse_aspect_ratio_custom t Hl), (split_two_contains _ _ _ _ Hs).
  unfold custom_ratio; rewrite Hs; simpl; rewrite Ha; simpl; rewrite Hb; simpl.
  split; intros Hc q n Hq Hn; rewrite Hc, Hq; simpl; rewrite Hn; reflexivity.
Qed.

(** C2 (witness). *)
Lemma parse_aspect_ratio_custom_dims_witness :
  parse_aspect_ratio "9:5" = PyOk (1024, (568 + 7) / 8 * 8).
Proof.
  destruct parse_aspect_ratio_custom_dims as [H _].
  apply (proj1 (H "9:5" "9" "5" 9%float 5%float eq_refl eq_refl eq_refl eq_refl)
           eq_refl (PrimFloat.div (PrimFloat.mul (float_of_Z 1024) 5%float) 9%float) 568);
    vm_compute; reflexivity.
Defined.

(** C3 (counterexample): "1:0" is not a preset, contains ":" and parses, and
    the resolver returns (1024, 0): a zero height. *)
Lemma parse_aspect_ratio_zero_height :
  dict_lookup (py_lower "1:0") ASPECT_RATIOS = None /\
  parse_aspect_ratio "1:0" = PyOk (1024, 0) /\
  ~ (forall t w h, dict_lookup (py_lower t) ASPECT_RATIOS = None ->
       parse_aspect_ratio t = PyOk (w, h) -> 0 < w /\ 0 < h).
Proof.
  split; [reflexivity|split; [reflexivity|]].
  intros H; destruct (H "1:0" 1024 0 eq_refl eq_refl); lia.
Qed.

(** C3 (amended): every pair the resolver returns for a custom token has
    one side equal to 1024 and both sides multiples of 8; the other side need
    not be positive: "1:0" and "2000:1" give height 0, "0:1" gives width 0 and
    "-1:1" gives width -1024. *)
Theorem parse_aspect_ratio_custom_shape :
  (forall t w h, dict_lookup (py_lower t) ASPECT_RATIOS = None ->
     parse_aspect_ratio t = PyOk (w, h) ->
     (w = 1024 \/ h = 1024) /\ w mod 8 = 0 /\ h mod 8 = 0) /\
  parse_aspect_ratio "1:0" = PyOk (1024, 0) /\
  parse_aspect_ratio "2000:1" = PyOk (1024, 0) /\
  parse_aspect_ratio "0:1" = PyOk (0, 1024) /\
  parse_aspect_ratio "-1:1" = PyOk (-1024, 1024).
Proof.
  split; [|repeat split; reflexivity].
  intros t w h Hl Hp; apply (custom_ratio_shape t), (parse_custom_ok t); auto.
Qed.

(** C3 (witness). *)
Lemma parse_aspect_ratio_custom_shape_witness :
  parse_aspect_ratio "4:3" = PyOk (1024, 768) /\
  ((1024 = 1024 \/ 768 = 1024) /\ 1024 mod 8 = 0 /\ 768 mod 8 = 0).
Proof.
  split; [reflexivity|].
  apply (proj1 parse_aspect_ratio_custom_shape "4:3"); reflexivity.
Defined.

(** C4: for every entry (k, (w, h)) of the 12-entry preset table and every
    token whose lower-case form is k, the resolver returns (w, h) without
    the custom computation: "16:9" gives (1280, 720), where the custom
    computation would give (1024, 576). *)
Theorem parse_aspect_ratio_presets :
  length ASPECT_RATIOS = 12%nat /\
  (forall t k wh, In (k, wh) ASPECT_RATIOS -> py_lower t = k ->
     parse_aspect_ratio t = PyOk wh) /\
  parse_aspect_ratio "16:9" = PyOk (1280, 720) /\
  custom_ratio "16:9" = PyOk (1024, 576).
Proof.
  split; [reflexivity|split; [|split; reflexivity]].
  intros t k wh Hin Hl; unfold parse_aspect_ratio; rewrite Hl.
  simpl in Hin; repeat destruct Hin as [Hin|Hin]; inversion Hin; subst; reflexivity.
Qed.

(** C4 (witness). *)
Lemma parse_aspect_ratio_presets_witness :
  parse_aspect_ratio "CINEMA" = PyOk (1280, 720).
Proof.
  apply (proj1 (proj2 parse_aspect_ratio_presets) "CINEMA" "cinema" (1280, 720));
    [simpl; tauto | reflexivity].
Defined.

(** C8: a token outside the preset table fails with
    [ValueError("Invalid aspect ratio: ...")] when it has no ":", and when
    one of its ":"-separated components is not a float literal. *)
Theorem parse_aspect_ratio_invalid t :
  dict_lookup (py_lower t) ASPECT_RATIOS = None ->
  (str_contains ":" t = false ->
     parse_aspect_ratio t = PyErr (ValueError ("Invalid aspect ratio: " ++ t))) /\
  (forall c e, In c (py_split ":" t) -> py_float c = PyErr e ->
     parse_aspect_ratio t = PyErr (ValueError ("Invalid aspect ratio: " ++ t))).
Proof.
  intros Hl; rewrite (parse_aspect_ratio_custom t Hl).
  split; [intros ->; reflexivity|].
  intros c e Hin Hc.
  destruct (str_contains ":" t); [|reflexivity].
  unfold custom_ratio.
  destruct (unpack_two_floats (py_split ":" t)) as [[fa fb]|e'] eqn:Eu; simpl.
  - destruct (unpack_two_floats_ok _ _ _ Eu) as (a & b & Hs & Ha & Hb).
    rewrite Hs in Hin; simpl in Hin.
    destruct Hin as [<-|[<-|[]]]; congruence.
  - destruct (unpack_two_floats_err _ _ Eu) as [m ->]; reflexivity.
Qed.

(** C8 (witness). *)
Lemma parse_aspect_ratio_invalid_witness :
  parse_aspect_ratio "4:x" = PyErr (ValueError "Invalid aspect ratio: 4:x") /\
  parse_aspect_ratio "wide" = PyErr (ValueError "Invalid aspect ratio: wide").
Proof.
  split.
  - apply (proj2 (parse_aspect_ratio_invalid "4:x" eq_refl) "x"
             (ValueError "could not convert string to float: x"));
      [simpl; tauto | reflexivity].
  - apply (proj1 (parse_aspect_ratio_invalid "wide" eq_refl)); reflexivity.
Defined.

(** * Properties of the request builder *)

Lemma dict_lookup_set {V} (k k' : string) (v : V) d :
  dict_lookup k (dict_set k' v d) = if String.eqb k k' then Some v else dict_lookup k d.
Proof.
  induction d as [|[k0 v0] d IH]; simpl.
  - reflexivity.
  - destruct (String.eqb k' k0) eqn:E1; simpl.
    + apply String.eqb_eq in E1; subst k0.
      destruct (String.eqb k k'); reflexivity.
    + rewrite IH. destruct (String.eqb k k0) eqn:E2; auto.
      apply String.eqb_eq in E2; subst k0.
      destruct (String.eqb k k') eqn:E3; auto.
      apply String.eqb_eq in E3; subst k'. rewrite String.eqb_refl in E1; discriminate.
Qed.

Lemma copy_optional_lookup kwargs ps payload k :
  dict_lookup k (fold_left (copy_optional kwargs) ps payload) =
  if existsb (String.eqb k) ps then
    match supplied kwargs k with Some v => Some v | None => dict_lookup k payload end
  else dict_lookup k payload.
Proof.
  revert payload; induction ps as [|p ps IH]; intros payload; simpl; auto.
  rewrite IH; unfold copy_optional, supplied.
  destruct (String.eqb k p) eqn:Ekp; simpl.
  - apply String.eqb_eq in Ekp; subst p.
    destruct (existsb _ ps);
      destruct (dict_lookup k kwargs) as [v|]; auto;
      destruct (is_none v); auto; rewrite dict_lookup_set, String.eqb_refl; reflexivity.
  - destruct (dict_lookup p kwargs) as [v|]; auto.
    destruct (is_none v); auto; rewrite dict_lookup_set, Ekp; reflexivity.
Qed.

(** C5: the payload always has hide_watermark = true and
    return_binary = false; format is the supplied one or "jpeg", safe_mode
    the supplied one or false; and each optional field is in the payload
    exactly when it was supplied with a value other than None, with that
    value, so that no optional field is ever sent as None. *)
Theorem build_payload_fields model prompt kwargs :
  let payload := build_payload model prompt kwargs in
  dict_lookup "model" payload = Some (PStr model) /\
  dict_lookup "prompt" payload = Some (PStr prompt) /\
  dict_lookup "hide_watermark" payload = Some (PBool true) /\
  dict_lookup "return_binary" payload = Some (PBool false) /\
  dict_lookup "format" payload = Some (kw_get kwargs "format" (PStr "jpeg")) /\
  dict_lookup "safe_mode" payload = Some (kw_get kwargs "safe_mode" (PBool false)) /\
  (forall k, In k optional_params ->
     dict_lookup k payload = supplied kwargs k /\
     ((exists v, dict_lookup k payload = Some v) <->
      (exists v, dict_lookup k kwargs = Some v /\ v <> PNone)) /\
     dict_lookup k payload <> Some PNone).
Proof.
  cbv zeta; unfold build_payload; fold (copy_optional kwargs).
  set (p0 := [("model", PStr model); ("prompt", PStr prompt);
      ("format", kw_get kwargs "format" (PStr "jpeg")); ("hide_watermark", PBool true);
      ("safe_mode", kw_get kwargs "safe_mode" (PBool false)); ("return_binary", PBool false)]).
  assert (Hs : forall k, In k optional_params ->
            dict_lookup k (fold_left (copy_optional kwargs) optional_params p0) = supplied kwargs k).
  { intros k Hk; rewrite copy_optional_lookup.
    replace (existsb (String.eqb k) optional_params) with true
      by (symmetry; apply existsb_exists; exists k; split; auto; apply String.eqb_refl).
    destruct (supplied kwargs k); auto.
    simpl in Hk; repeat destruct Hk as [<-|Hk]; try reflexivity; destruct Hk. }
  repeat split; try (rewrite copy_optional_lookup; reflexivity).
  - apply Hs; auto.
  - intros [v Hv]; rewrite (Hs k H) in Hv; unfold supplied in Hv.
    destruct (dict_lookup k kwargs) as [v'|]; [|discriminate].
    destruct v'; simpl in Hv; inversion Hv; subst; eexists; split; eauto; discriminate.
  - intros [v [Hv Hn]]; rewrite (Hs k H); unfold supplied; rewrite Hv.
    destruct v; simpl; eauto; congruence.
  - rewrite (Hs k H); unfold supplied.
    destruct (dict_lookup k kwargs) as [v'|]; [|discriminate].
    destruct v'; simpl; congruence.
Qed.

(** * Properties of the collision loop of [save_image] *)

Lemma str_contains_app c a b :
  str_contains c (a ++ b) = str_contains c a || str_contains c b.
Proof. induction a as [|d a IH]; simpl; auto. rewrite IH, orb_assoc; reflexivity. Qed.

Lemma py_split_pieces c s x : In x (py_split c s) -> str_contains c x = false.
Proof.
  revert x; induction s as [|d s IH]; intros x; simpl.
  - intros [<-|[]]; reflexivity.
  - destruct (Ascii.eqb d c) eqn:E.
    + intros [<-|Hx]; auto.
    + destruct (py_split c s) as [|p ps] eqn:Es.
      * intros [<-|[]]; simpl; rewrite Ascii.eqb_sym, E; reflexivity.
      * intros [<-|Hx]; simpl.
        -- rewrite Ascii.eqb_sym, E; apply IH; left; reflexivity.
        -- apply IH; right; exact Hx.
Qed.

Lemma in_last {A} (l : list A) (d : A) : In (last l d) (d :: l).
Proof.
  induction l as [|x l IH]; simpl; auto.
  destruct l as [|y l]; simpl; auto.
  simpl in IH; destruct IH as [<-|IH]; auto.
Qed.

Lemma substring_no c s n m :
  str_contains c s = false -> str_contains c (substring n m s) = false.
Proof.
  revert n m; induction s as [|d s IH]; intros n m H; simpl.
  - destruct n, m; reflexivity.
  - simpl in H; apply orb_false_iff in H as [H1 H2].
    destruct n as [|n]; [destruct m as [|m]; simpl; [reflexivity|rewrite H1; apply IH; auto]|].
    apply IH; auto.
Qed.

Lemma path_name_no_slash p : str_contains "/" (path_name p) = false.
Proof.
  unfold path_name.
  destruct (in_last (path_parts p) "") as [<-|Hin]; [reflexivity|].
  unfold path_parts in Hin; apply filter_In in Hin as [Hin _].
  apply (py_split_pieces _ _ _ Hin).
Qed.

Lemma path_stem_no_slash p : str_contains "/" (path_stem p) = false.
Proof.
  unfold path_stem; destruct (suffix_dot _);
    [apply substring_no|]; apply path_name_no_slash.
Qed.

Lemma path_suffix_no_slash p : str_contains "/" (path_suffix p) = false.
Proof.
  unfold path_suffix; destruct (suffix_dot _); [apply substring_no, path_name_no_slash|reflexivity].
Qed.

Lemma uint_string_no_slash d : str_contains "/" (NilEmpty.string_of_uint d) = false.
Proof. induction d; simpl; auto. Qed.

Lemma str_of_nat_no_slash n : str_contains "/" (str_of_nat n) = false.
Proof.
  unfold str_of_nat, NilZero.string_of_uint.
  destruct (Nat.to_uint n); try reflexivity; apply uint_string_no_slash.
Qed.

Lemma candidate_no_slash p k : str_contains "/" (candidate p k) = false.
Proof.
  unfold candidate; rewrite !str_contains_app, path_stem_no_slash, path_suffix_no_slash,
    str_of_nat_no_slash; reflexivity.
Qed.

Lemma str_contains_underscore_candidate p k : str_contains "_" (candidate p k) = true.
Proof.
  unfold candidate; rewrite !str_contains_app; simpl.
  rewrite orb_true_r; reflexivity.
Qed.

(** A name with no "/", no "_"-free emptiness and not "." is in normal form. *)
Lemma path_str_plain s :
  str_contains "/" s = false -> str_contains "_" s = true -> path_str s = s.
Proof.
  intros H1 H2.
  assert (Hr : path_root s = "").
  { destruct s as [|c s]; [reflexivity|].
    change (str_contains "/" (String c s)) with (Ascii.eqb "/" c || str_contains "/" s) in H1.
    apply orb_false_iff in H1 as [H1 _]; cbn [path_root].
    rewrite Ascii.eqb_sym, H1; reflexivity. }
  assert (Hp : path_parts s = [s]).
  { unfold path_parts; rewrite (py_split_no_sep _ _ H1); simpl.
    destruct (String.eqb s "") eqn:E1; [apply String.eqb_eq in E1; subst; discriminate|].
    destruct (String.eqb s ".") eqn:E2; [apply String.eqb_eq in E2; subst; discriminate|].
    reflexivity. }
  unfold path_str; rewrite Hr, Hp; reflexivity.
Qed.

Lemma string_app_cancel_l a b c : a ++ b = a ++ c -> b = c.
Proof. induction a as [|x a IH]; simpl; auto. intros H; injection H; auto. Qed.

Lemma string_length_app a b : String.length (a ++ b) = (String.length a + String.length b)%nat.
Proof. induction a as [|x a IH]; simpl; auto. Qed.

Lemma string_app_cancel_r a b c : a ++ c = b ++ c -> a = b.
Proof.
  revert b; induction a as [|x a IH]; intros b H; destruct b as [|y b]; auto.
  - apply (f_equal String.length) in H; simpl in H; rewrite string_length_app in H; lia.
  - apply (f_equal String.length) in H; simpl in H; rewrite string_length_app in H; lia.
  - simpl in H; injection H as -> H; f_equal; auto.
Qed.

Lemma uint_roundtrip d :
  option_map Nat.of_uint (NilZero.uint_of_string (NilZero.string_of_uint d)) =
  Some (Nat.of_uint d).
Proof. destruct d; try reflexivity; rewrite NilZero.usu by discriminate; reflexivity. Qed.

Lemma str_of_nat_inj n1 n2 : str_of_nat n1 = str_of_nat n2 -> n1 = n2.
Proof.
  unfold str_of_nat; intros H.
  pose proof (uint_roundtrip (Nat.to_uint n1)) as E1.
  pose proof (uint_roundtrip (Nat.to_uint n2)) as E2.
  rewrite H, E2, !DecimalNat.Unsigned.of_to in E1.
  injection E1; auto.
Qed.

Lemma candidate_inj p k1 k2 : candidate p k1 = candidate p k2 -> k1 = k2.
Proof.
  unfold candidate; intros H.
  apply string_app_cancel_l in H; simpl in H; injection H as H.
  apply string_app_cancel_r in H; apply str_of_nat_inj; exact H.
Qed.

Lemma path_str_candidate p k : path_str (candidate p k) = candidate p k.
Proof.
  apply path_str_plain; [apply candidate_no_slash|apply str_contains_underscore_candidate].
Qed.

Lemma avoid_collision_none fuel files original filename counter :
  avoid_collision fuel files original filename counter = None ->
  forall i, (i < fuel)%nat ->
    path_exists files (match i with O => filename | S j => candidate original (counter + j) end) = true.
Proof.
  revert filename counter; induction fuel as [|fuel IH]; intros filename counter H i Hi; [lia|].
  simpl in H; destruct (path_exists files filename) eqn:E; [|discriminate].
  destruct i as [|j]; auto.
  specialize (IH _ _ H j ltac:(lia)).
  destruct j as [|j]; [rewrite Nat.add_0_r; exact IH|].
  replace (counter + S j)%nat with (S counter + j)%nat by lia; exact IH.
Qed.

Lemma NoDup_map_inj {A B} (f : A -> B) (l : list A) :
  (forall x y, f x = f y -> x = y) -> NoDup l -> NoDup (map f l).
Proof.
  intros Hf; induction 1 as [|x l Hx Hl IH]; simpl; constructor; auto.
  intros Hin; apply in_map_iff in Hin as (y & Hy & Hin); apply Hf in Hy; subst; auto.
Qed.

(** The loop ends within [length files + 2] iterations. *)
Lemma avoid_collision_terminates files filename :
  avoid_collision (length files + 2) files filename filename 1 <> None.
Proof.
  intros H.
  pose proof (avoid_collision_none _ _ _ _ _ H) as Hall.
  set (L := map (fun j => candidate filename (1 + j)) (seq 0 (S (length files)))).
  assert (Hnd : NoDup L).
  { apply NoDup_map_inj; [|apply seq_NoDup].
    intros x y Hxy; apply candidate_inj in Hxy; lia. }
  assert (Hinc : incl L files).
  { intros x Hx; apply in_map_iff in Hx as (j & <- & Hj); apply in_seq in Hj.
    specialize (Hall (S j) ltac:(lia)); unfold path_exists in Hall.
    apply existsb_exists in Hall as (y & Hy & Heq); apply String.eqb_eq in Heq.
    rewrite path_str_candidate in Heq; subst; exact Hy. }
  pose proof (NoDup_incl_length Hnd Hinc) as Hlen.
  unfold L in Hlen; rewrite length_map, length_seq in Hlen; lia.
Qed.

Lemma avoid_collision_some fuel files original filename counter r :
  avoid_collision fuel files original filename counter = Some r ->
  (path_exists files filename = false /\ r = filename) \/
  (path_exists files filename = true /\ path_exists files r = false /\
   exists k, (counter <= k)%nat /\ r = candidate original k /\
     forall j, (counter <= j < k)%nat -> path_exists files (candidate original j) = true).
Proof.
  revert filename counter; induction fuel as [|fuel IH]; intros filename counter H; [discriminate|].
  simpl in H; destruct (path_exists files filename) eqn:E.
  - right; split; auto.
    destruct (IH _ _ H) as [[E' ->]|[E' [Hr (k & Hk & -> & Hj)]]].
    + split; auto; exists counter; split; auto; split; auto; intros; lia.
    + split; auto; exists k; split; [lia|split; auto].
      intros j Hj'; destruct (Nat.eq_dec j counter) as [->|Hne]; auto.
      apply Hj; lia.
  - left; injection H; auto.
Qed.

Lemma collision_free_name_spec files f :
  (path_exists files f = false -> collision_free_name files f = f) /\
  (path_exists files f = true ->
     exists k, (1 <= k)%nat /\ collision_free_name files f = candidate f k /\
       path_exists files (candidate f k) = false /\
       forall j, (1 <= j < k)%nat -> path_exists files (candidate f j) = true).
Proof.
  unfold collision_free_name.
  destruct (avoid_collision (length files + 2) files f f 1) as [r|] eqn:E;
    [|destruct (avoid_collision_terminates files f E)].
  destruct (avoid_collision_some _ _ _ _ _ _ E) as [[E1 ->]|[E1 [Hr (k & Hk & -> & Hj)]]];
    split; intros H; try congruence.
  exists k; auto.
Qed.

(** C10: a renamed candidate is [stem + "_" + str(counter) + suffix] of the
    original path and contains no "/": the directory of the original path is
    dropped, and the file is written relative to the working directory; for
    an existing "dir/foo.png" the name written is "foo_1.png". *)
Theorem collision_rename_drops_directory :
  (forall p k, candidate p k = path_stem p ++ "_" ++ str_of_nat k ++ path_suffix p /\
               str_contains "/" (candidate p k) = false) /\
  (forall files p, path_exists files p = true ->
     exists k, (1 <= k)%nat /\ collision_free_name files p = candidate p k /\
       str_contains "/" (collision_free_name files p) = false) /\
  collision_free_name ["dir/foo.png"] "dir/foo.png" = "foo_1.png".
Proof.
  split; [intros p k; split; [reflexivity|apply candidate_no_slash]|].
  split; [|reflexivity].
  intros files p Hp.
  destruct (proj2 (collision_free_name_spec files p) Hp) as (k & Hk & E & _).
  exists k; rewrite E; split; auto; split; auto; apply candidate_no_slash.
Qed.

(** C10 (witness). *)
Lemma collision_rename_drops_directory_witness :
  exists k, (1 <= k)%nat /\
    collision_free_name ["out/cat.png"] "out/cat.png" = candidate "out/cat.png" k /\
    str_contains "/" (collision_free_name ["out/cat.png"] "out/cat.png") = false.
Proof. apply (proj1 (proj2 collision_rename_drops_directory)); reflexivity. Defined.

(** C5 (witness). *)
Lemma build_payload_fields_witness :
  In "seed" optional_params /\
  dict_lookup "seed" (build_payload "venice-sd35" "a cat" [("seed", PNone)]) = None.
Proof.
  split; [simpl; tauto|].
  destruct (build_payload_fields "venice-sd35" "a cat" [("seed", PNone)])
    as (_ & _ & _ & _ & _ & _ & H).
  destruct (H "seed") as [-> _]; [simpl; tauto | reflexivity].
Defined.

(** * Properties of the CLI driver *)

Lemma bind_exits {A B} (P : Z -> Prop) (m : M A) (k : A -> M B) :
  exits_with P m -> (forall a, exits_with P (k a)) -> exits_with P (bind m k).
Proof.
  destruct m as [t [a|c|e]]; simpl; auto.
  intros _ H; specialize (H a); destruct (k a) as [t' r]; auto.
Qed.

Lemma bind_writes_r {A B} (m : M A) (k : A -> M B) :
  (forall a, done_writes (k a)) -> done_writes (bind m k).
Proof.
  destruct m as [t [a|c|e]]; simpl; auto.
  intros H; specialize (H a); destruct (k a) as [t' [b|c|e]]; simpl in *; auto.
  destruct H as (f & d & Hin); exists f, d; apply in_app_iff; auto.
Qed.

Lemma bind_writes_l {A B} (m : M A) (k : A -> M B) :
  (forall t a, m = (t, Done a) -> exists f d, In (File_write f d) t) ->
  done_writes (bind m k).
Proof.
  destruct m as [t [a|c|e]]; simpl; auto.
  intros H; destruct (k a) as [t' [b|c|e]]; simpl; auto.
  destruct (H t a eq_refl) as (f & d & Hin); exists f, d; apply in_app_iff; auto.
Qed.

Lemma for_each_exits {A} (P : Z -> Prop) (l : list A) (body : A -> M unit) :
  (forall x, exits_with P (body x)) -> exits_with P (for_each l body).
Proof.
  intros H; induction l as [|x l IH]; simpl; [exact I|].
  apply bind_exits; auto.
Qed.

Ltac exits_tac :=
  repeat first
    [ exact I
    | apply bind_exits; [|intros ?]
    | apply for_each_exits; intros ?
    | progress cbv beta
    | match goal with
      | |- exits_with _ (match ?x with _ => _ end) => destruct x
      | |- exits_with _ (lift ?r) => destruct r
      | |- exits_with _ (py_get ?d _ _) => destruct d
      | |- exits_with _ (py_index0 ?d) => destruct d as [| | | | [|[]] |[|]|]
      | |- exits_with _ (parser_error _) => simpl; lia
      | |- exits_with _ (sys_exit _) => simpl; lia
      | |- exits_with _ (emit _) => exact I
      | |- exits_with _ (ret _) => exact I
      end ].

Section CliProofs.
Variable py_str : json -> string.

Lemma list_models_cmd_exits w v : exits_with (fun c => c = 1) (list_models_cmd py_str w v).
Proof. unfold list_models_cmd; exits_tac. Qed.

Lemma generate_cmd_exits w a :
  exits_with (fun c => c = 1 \/ c = 2) (generate_cmd py_str w a).
Proof. unfold generate_cmd, resolve_dims, generate_image, save_image; exits_tac. Qed.

Lemma save_image_writes w d o i e t f :
  save_image py_str w d o i e = (t, Done f) -> exists f' d', In (File_write f' d') t.
Proof.
  unfold save_image; cbv zeta.
  destruct (b64decode w d); [destruct (w_can_write _ _)|]; simpl; intros H;
    inversion H; subst; eauto; simpl; eauto.
Qed.

Lemma generate_cmd_writes w a : done_writes (generate_cmd py_str w a).
Proof.
  unfold generate_cmd.
  destruct (prompt a) as [pr|]; [|exact I].
  destruct (negb _); [exact I|].
  apply bind_writes_r; intros [wd ht].
  do 3 (apply bind_writes_r; intros ?).
  destruct (negb _); [apply bind_writes_r; intros; exact I|].
  do 2 (apply bind_writes_r; intros ?).
  apply bind_writes_l; apply save_image_writes.
Qed.

Lemma bind_ret {A B} (x : A) (k : A -> M B) : bind (ret x) k = k x.
Proof. simpl; destruct (k x); reflexivity. Qed.

Lemma bind_emit {B} (e : event) (k : unit -> M B) :
  bind (emit e) k = let '(t, r) := k tt in (e :: t, r).
Proof. reflexivity. Qed.

(** A run that reaches the request: the output up to the POST. *)
Lemma run_reaching_request w a pr wd ht :
  reaches_request w a pr (wd, ht) ->
  main py_str w =
    bind (emit (Stdout ("Generating image with model '" ++ model a ++ "'..."))) (fun _ =>
    bind (generate_image py_str w pr (model a) (gen_params_of a wd ht)) (fun result =>
    bind (py_get result "images" (JArr [])) (fun images =>
    if negb (json_truthy images) then
      emit (Stderr "No images returned from API") ;;; sys_exit 1
    else
      image_id <- py_get result "id" (JStr "generated_image") ;;
      base64_data <- py_index0 images ;;
      filename <- save_image py_str w base64_data (output a) image_id (format a) ;;
      emit (Stdout ("Image saved as: " ++ filename)) ;;;
      timing <- py_get result "timing" (JObj []) ;;
      if json_truthy timing then
        total <- py_get timing "total" (JInt 0) ;;
        total_time <- lift (py_div_1000 total) ;;
        emit (Stdout_timing total_time)
      else ret tt))).
Proof.
  intros (Hk & Ha & Hl & Hp & Hpr & Hr).
  unfold main; rewrite Hk, Ha; simpl negb; cbv iota; rewrite Hl.
  unfold generate_cmd; rewrite Hp, Hpr; simpl negb; cbv iota.
  rewrite Hr, bind_ret; reflexivity.
Qed.

(** The response to a request that produced no image. *)
Lemma run_empty_images w a pr wd ht l :
  reaches_request w a pr (wd, ht) ->
  w_generate_response w = Http_ok (JObj l) ->
  dict_lookup "images" l = Some (JArr []) \/ dict_lookup "images" l = None ->
  run_main py_str w =
    ([Stdout ("Generating image with model '" ++ model a ++ "'...");
      Http_post_generate (request_payload a pr (wd, ht));
      Stderr "No images returned from API"], 1).
Proof.
  intros R G I; unfold run_main; rewrite (run_reaching_request _ _ _ _ _ R).
  unfold generate_image; rewrite G; simpl.
  destruct I as [E|E]; rewrite E; reflexivity.
Qed.

Lemma run_missing_key w :
  truthy_str (w_api_key w) = false ->
  run_main py_str w = ([Stderr "Error: VENICE_API_KEY environment variable is required"], 1).
Proof. intros H; unfold run_main, main; rewrite H; reflexivity. Qed.

Lemma run_missing_prompt w a :
  truthy_str (w_api_key w) = true -> w_argv w = Argv_parsed a -> list_models a = false ->
  truthy_str (prompt a) = false ->
  run_main py_str w = ([Stderr_usage PROMPT_REQUIRED], 2).
Proof.
  intros Hk Ha Hl Hp; unfold run_main, main; rewrite Hk, Ha; simpl negb; cbv iota.
  rewrite Hl; unfold generate_cmd.
  destruct (prompt a) as [pr|]; [rewrite Hp|]; reflexivity.
Qed.

Lemma run_ar_conflict w a pr t :
  truthy_str (w_api_key w) = true -> w_argv w = Argv_parsed a -> list_models a = false ->
  prompt a = Some pr -> truthy_str (Some pr) = true ->
  aspect_ratio a = Some t -> truthy_str (Some t) = true ->
  truthy_int (width a) || truthy_int (height a) = true ->
  run_main py_str w = ([Stderr_usage AR_CONFLICT], 2).
Proof.
  intros Hk Ha Hl Hp Hpr Har Ht Hwh; unfold run_main, main; rewrite Hk, Ha; simpl negb; cbv iota.
  rewrite Hl; unfold generate_cmd; rewrite Hp, Hpr; simpl negb; cbv iota.
  unfold resolve_dims; rewrite Har, Ht, Hwh; reflexivity.
Qed.

Lemma run_invalid_ratio w a pr t msg :
  truthy_str (w_api_key w) = true -> w_argv w = Argv_parsed a -> list_models a = false ->
  prompt a = Some pr -> truthy_str (Some pr) = true ->
  aspect_ratio a = Some t -> truthy_str (Some t) = true ->
  truthy_int (width a) || truthy_int (height a) = false ->
  parse_aspect_ratio t = PyErr (ValueError msg) ->
  run_main py_str w = ([Stderr_usage msg], 2).
Proof.
  intros Hk Ha Hl Hp Hpr Har Ht Hwh Hpa; unfold run_main, main; rewrite Hk, Ha; simpl negb; cbv iota.
  rewrite Hl; unfold generate_cmd; rewrite Hp, Hpr; simpl negb; cbv iota.
  unfold resolve_dims; rewrite Har, Ht, Hwh, Hpa; reflexivity.
Qed.

Lemma run_http_failure w a pr wd ht r :
  reaches_request w a pr (wd, ht) -> w_generate_response w = Http_failed r ->
  snd (run_main py_str w) = 1 /\
  In (Http_post_generate (request_payload a pr (wd, ht))) (fst (run_main py_str w)).
Proof.
  intros R G; unfold run_main; rewrite (run_reaching_request _ _ _ _ _ R).
  unfold generate_image; rewrite G.
  destruct r as [[ok js tx]|]; [destruct ok; [destruct js|]|]; simpl; auto.
Qed.

Lemma run_save_failure w a pr wd ht l x xs :
  reaches_request w a pr (wd, ht) -> w_generate_response w = Http_ok (JObj l) ->
  dict_lookup "images" l = Some (JArr (x :: xs)) ->
  (b64decode w x = None \/
   w_can_write w (collision_free_name (w_files w)
     (output_name py_str (output a)
        (match dict_lookup "id" l with Some v => v | None => JStr "generated_image" end)
        (format a))) = false) ->
  snd (run_main py_str w) = 1.
Proof.
  intros R G I D; unfold run_main; rewrite (run_reaching_request _ _ _ _ _ R).
  unfold generate_image; rewrite G; simpl; rewrite I; simpl.
  unfold save_image; cbv zeta.
  destruct D as [D|D]; [rewrite D; reflexivity|].
  destruct (b64decode w x); [|reflexivity].
  match goal with |- context [w_can_write w ?f] =>
    replace (w_can_write w f) with false by (symmetry; exact D) end.
  reflexivity.
Qed.

Lemma run_exit_0 w :
  snd (run_main py_str w) = 0 ->
  w_argv w = Argv_help \/
  (exists a data, w_argv w = Argv_parsed a /\ list_models a = true /\
     w_models_response w = Http_ok data) \/
  (exists f d, In (File_write f d) (fst (run_main py_str w))).
Proof.
  unfold run_main.
  pose proof (fun a => generate_cmd_writes w a) as Hw.
  pose proof (fun a => generate_cmd_exits w a) as He.
  pose proof (list_models_cmd_exits w) as Hle.
  unfold main in *.
  destruct (negb (truthy_str (w_api_key w))); [simpl; lia|].
  destruct (w_argv w) as [a|msg|]; [|simpl; lia|auto].
  destruct (list_models a) eqn:Hlm.
  - intros H; right; left; exists a.
    specialize (Hle (verbose a)); unfold list_models_cmd in *.
    destruct (w_models_response w) as [r|data]; [simpl in *; lia|eauto].
  - specialize (Hw a); specialize (He a).
    destruct (generate_cmd py_str w a) as [t [u|c|e]]; simpl in *; intros H; [eauto|lia|lia].
Qed.

(** C1: the exit statuses of [main]. A missing key, an HTTP failure (of the
    generation or of the models request), an empty [images], a decode
    failure and a failure to write the chosen file end with status 1; the
    missing prompt, the --ar/--width/--height conflict and an invalid ratio
    are [parser.error] calls and end with status 2, the conflict before any
    request; status 0 is reached only by --help, a models listing whose
    request succeeded, or a run that wrote the image file. *)
Theorem main_exit_statuses :
  (forall w, truthy_str (w_api_key w) = false -> snd (run_main py_str w) = 1) /\
  (forall w a pr t,
     truthy_str (w_api_key w) = true -> w_argv w = Argv_parsed a -> list_models a = false ->
     prompt a = Some pr -> truthy_str (Some pr) = true ->
     aspect_ratio a = Some t -> truthy_str (Some t) = true ->
     truthy_int (width a) || truthy_int (height a) = true ->
     run_main py_str w = ([Stderr_usage AR_CONFLICT], 2) /\
     Forall (fun e => is_network e = false) (fst (run_main py_str w))) /\
  (forall w a,
     truthy_str (w_api_key w) = true -> w_argv w = Argv_parsed a -> list_models a = false ->
     truthy_str (prompt a) = false -> snd (run_main py_str w) = 2) /\
  (forall w a pr t msg,
     truthy_str (w_api_key w) = true -> w_argv w = Argv_parsed a -> list_models a = false ->
     prompt a = Some pr -> truthy_str (Some pr) = true ->
     aspect_ratio a = Some t -> truthy_str (Some t) = true ->
     truthy_int (width a) || truthy_int (height a) = false ->
     parse_aspect_ratio t = PyErr (ValueError msg) -> snd (run_main py_str w) = 2) /\
  (forall w a pr dims r,
     reaches_request w a pr dims -> w_generate_response w = Http_failed r ->
     snd (run_main py_str w) = 1) /\
  (forall w a r,
     truthy_str (w_api_key w) = true -> w_argv w = Argv_parsed a -> list_models a = true ->
     w_models_response w = Http_failed r -> snd (run_main py_str w) = 1) /\
  (forall w a pr dims l,
     reaches_request w a pr dims -> w_generate_response w = Http_ok (JObj l) ->
     dict_lookup "images" l = Some (JArr []) \/ dict_lookup "images" l = None ->
     snd (run_main py_str w) = 1) /\
  (forall w a pr dims l x xs,
     reaches_request w a pr dims -> w_generate_response w = Http_ok (JObj l) ->
     dict_lookup "images" l = Some (JArr (x :: xs)) ->
     (b64decode w x = None \/
      w_can_write w (collision_free_name (w_files w)
        (output_name py_str (output a)
           (match dict_lookup "id" l with Some v => v | None => JStr "generated_image" end)
           (format a))) = false) ->
     snd (run_main py_str w) = 1) /\
  (forall w, snd (run_main py_str w) = 0 ->
     w_argv w = Argv_help \/
     (exists a data, w_argv w = Argv_parsed a /\ list_models a = true /\
        w_models_response w = Http_ok data) \/
     (exists f d, In (File_write f d) (fst (run_main py_str w)))).
Proof.
  split; [intros w H; rewrite (run_missing_key w H); reflexivity|].
  split; [intros w a pr t Hk Ha Hl Hp Hpr Har Ht Hwh;
          rewrite (run_ar_conflict w a pr t Hk Ha Hl Hp Hpr Har Ht Hwh);
          split; [reflexivity | repeat constructor]|].
  split; [intros w a Hk Ha Hl Hp; rewrite (run_missing_prompt w a Hk Ha Hl Hp); reflexivity|].
  split; [intros w a pr t msg Hk Ha Hl Hp Hpr Har Ht Hwh Hpa;
          rewrite (run_invalid_ratio w a pr t msg Hk Ha Hl Hp Hpr Har Ht Hwh Hpa); reflexivity|].
  split; [intros w a pr [wd ht] r R G; apply (run_http_failure w a pr wd ht r R G)|].
  split; [intros w a r Hk Ha Hl Hr; unfold run_main, main; rewrite Hk, Ha, Hl; simpl negb; cbv iota;
          unfold list_models_cmd; rewrite Hr; reflexivity|].
  split; [intros w a pr [wd ht] l R G I; rewrite (run_empty_images w a pr wd ht l R G I); reflexivity|].
  split; [intros w a pr [wd ht] l x xs R G I D; apply (run_save_failure w a pr wd ht l x xs R G I D)|].
  apply run_exit_0.
Qed.

(** C7: a successful response without images (an empty or absent [images])
    ends the run with "No images returned from API" on stderr and status 1,
    and no file is written. *)
Theorem empty_images_is_fatal w a pr dims l :
  reaches_request w a pr dims ->
  w_generate_response w = Http_ok (JObj l) ->
  dict_lookup "images" l = Some (JArr []) \/ dict_lookup "images" l = None ->
  run_main py_str w =
    ([Stdout ("Generating image with model '" ++ model a ++ "'...");
      Http_post_generate (request_payload a pr dims);
      Stderr "No images returned from API"], 1) /\
  last (fst (run_main py_str w)) Stdout_help = Stderr "No images returned from API" /\
  snd (run_main py_str w) <> 0 /\
  (forall f d, ~ In (File_write f d) (fst (run_main py_str w))).
Proof.
  destruct dims as [wd ht]; intros R G I.
  rewrite (run_empty_images w a pr wd ht l R G I).
  split; [reflexivity|]; split; [reflexivity|]; split; [discriminate|].
  intros f d H; simpl in H; intuition discriminate.
Qed.

(** C6 (the directory of --output is lost): for [--output out/cat.png] with
    "out/cat.png" present, the image is written to "cat_1.png" in the
    working directory, not to "out/cat_1.png", which does not exist. *)
Theorem output_collision_written_to_cwd :
  run_main py_str out_dir_world =
    ([Stdout "Generating image with model 'venice-sd35'...";
      Http_post_generate (request_payload (sample_args None None (Some "out/cat.png")) "a cat" (None, None));
      File_write "cat_1.png" [Byte.x00];
      Stdout "Image saved as: cat_1.png"], 0) /\
  path_exists (w_files out_dir_world) "out/cat_1.png" = false /\
  "cat_1.png" <> "out/cat_1.png".
Proof. split; [reflexivity|]; split; [reflexivity|discriminate]. Qed.

Ltac run_eq a :=
  unfold run_main, main, generate_cmd, resolve_dims, with_argv; cbn [w_api_key w_argv];
  destruct (negb (truthy_str (w_api_key _))); [reflexivity|];
  cbn [list_models prompt aspect_ratio width height set_seed set_steps set_width set_height
       set_cfg_scale set_negative_prompt];
  destruct (list_models a); [reflexivity|];
  destruct (prompt a) as [pr|]; [|reflexivity];
  destruct (negb (truthy_str (Some pr))); [reflexivity|];
  destruct (aspect_ratio a) as [t|];
  [destruct (truthy_str (Some t));
   [cbn [truthy_int Z.eqb negb orb];
    destruct (truthy_int (width a)), (truthy_int (height a)); simpl orb; try reflexivity;
    destruct (parse_aspect_ratio t) as [[? ?]|[]]|]|];
  reflexivity.

(** C9: --seed 0, --steps 0, --cfg-scale 0 (also -0.0), --width 0,
    --height 0 and an empty --negative-prompt give the same run as leaving
    the option out; and --width 0 with --ar and no truthy --height resolves
    the ratio instead of raising the conflict error. *)
Theorem falsy_options_dropped w a :
  run_main py_str (with_argv w (set_seed a (Some 0))) = run_main py_str (with_argv w (set_seed a None)) /\
  run_main py_str (with_argv w (set_steps a (Some 0))) = run_main py_str (with_argv w (set_steps a None)) /\
  run_main py_str (with_argv w (set_cfg_scale a (Some 0%float))) =
    run_main py_str (with_argv w (set_cfg_scale a None)) /\
  run_main py_str (with_argv w (set_cfg_scale a (Some (-0)%float))) =
    run_main py_str (with_argv w (set_cfg_scale a None)) /\
  run_main py_str (with_argv w (set_width a (Some 0))) = run_main py_str (with_argv w (set_width a None)) /\
  run_main py_str (with_argv w (set_height a (Some 0))) = run_main py_str (with_argv w (set_height a None)) /\
  run_main py_str (with_argv w (set_negative_prompt a (Some ""))) =
    run_main py_str (with_argv w (set_negative_prompt a None)) /\
  (forall t, aspect_ratio a = Some t -> truthy_str (Some t) = true -> truthy_int (height a) = false ->
     resolve_dims (set_width a (Some 0)) =
       match parse_aspect_ratio t with
       | PyOk (wd, ht) => ret (Some wd, Some ht)
       | PyErr (ValueError msg) => parser_error msg
       | PyErr e => lift (PyErr e)
       end).
Proof.
  split; [run_eq a|]. split; [run_eq a|]. split; [run_eq a|]. split; [run_eq a|].
  split; [run_eq a|]. split; [run_eq a|]. split; [run_eq a|].
  intros t Har Ht Hh; unfold resolve_dims; cbn [aspect_ratio width height set_width].
  rewrite Har, Ht, Hh; reflexivity.
Qed.

End CliProofs.

(** C1 (witness): the conflict for [--ar square --width 512]. *)
Lemma main_exit_statuses_witness :
  run_main str_of_json_string ar_width_world = ([Stderr_usage AR_CONFLICT], 2).
Proof.
  destruct (main_exit_statuses str_of_json_string) as (_ & H & _).
  apply (H ar_width_world (sample_args (Some "square") (Some 512) None) "a cat" "square");
    reflexivity.
Defined.

(** C1 (counterexample): [--ar square --width 512] exits with status 2
    (argparse's [parser.error]), not 1. *)
Lemma ar_width_exits_with_2 :
  snd (run_main str_of_json_string ar_width_world) = 2 /\
  snd (run_main str_of_json_string ar_width_world) <> 1.
Proof. vm_compute; split; [reflexivity | discriminate]. Qed.

(** C7 (witness). *)
Lemma empty_images_is_fatal_witness :
  snd (run_main str_of_json_string no_image_world) <> 0.
Proof.
  apply (empty_images_is_fatal str_of_json_string no_image_world (sample_args None None None)
           "a cat" (None, None) [("images", JArr [])]);
    [unfold reaches_request; repeat split | reflexivity | left; reflexivity].
Defined.

(** C9 (witness): [--ar square --width 0] resolves the preset. *)
Lemma falsy_options_dropped_witness :
  resolve_dims (set_width (sample_args (Some "square") None None) (Some 0)) =
    ret (Some 1024, Some 1024).
Proof.
  destruct (falsy_options_dropped str_of_json_string no_image_world
              (sample_args (Some "square") None None)) as (_ & _ & _ & _ & _ & _ & _ & H).
  rewrite (H "square" eq_refl eq_refl eq_refl); reflexivity.
Defined.

(** * Further properties of the resolver *)

Lemma py_split_app c a b :
  str_contains c a = false -> py_split c (a ++ String c b) = a :: py_split c b.
Proof.
  induction a as [|d a IH]; simpl; intros H.
  - rewrite Ascii.eqb_refl; reflexivity.
  - apply orb_false_iff in H as [H1 H2]; rewrite Ascii.eqb_sym, H1, (IH H2); reflexivity.
Qed.

Lemma split_two a b :
  str_contains ":" a = false -> str_contains ":" b = false ->
  py_split ":" (a ++ ":" ++ b) = [a; b] /\ str_contains ":" (a ++ ":" ++ b) = true.
Proof.
  intros Ha Hb; split.
  - change (a ++ ":" ++ b) with (a ++ String ":" b); rewrite (py_split_app _ _ _ Ha).
    rewrite (py_split_no_sep _ _ Hb); reflexivity.
  - rewrite str_contains_app; simpl; rewrite orb_true_r; reflexivity.
Qed.

(** The body of the [try] block for "a:b" once both sides are parsed. *)
Lemma custom_ratio_two a b wr hr :
  str_contains ":" a = false -> str_contains ":" b = false ->
  py_float a = PyOk wr -> py_float b = PyOk hr ->
  custom_ratio (a ++ ":" ++ b) =
    (dims <-? (if PrimFloat.leb hr wr then
                 q <-? py_fdiv (PrimFloat.mul (float_of_Z 1024) hr) wr ;;
                 height <-? py_int_of_float q ;; PyOk (1024, height)
               else
                 q <-? py_fdiv (PrimFloat.mul (float_of_Z 1024) wr) hr ;;
                 width <-? py_int_of_float q ;; PyOk (width, 1024)) ;;
     let '(width, height) := dims in PyOk ((width + 7) / 8 * 8, (height + 7) / 8 * 8)).
Proof.
  intros Ha Hb Hfa Hfb; unfold custom_ratio.
  rewrite (proj1 (split_two a b Ha Hb)); simpl; rewrite Hfa; simpl; rewrite Hfb; reflexivity.
Qed.

(** [parse_aspect_ratio] on a non-preset "a:b". *)
Lemma parse_two a b :
  str_contains ":" a = false -> str_contains ":" b = false ->
  dict_lookup (py_lower (a ++ ":" ++ b)) ASPECT_RATIOS = None ->
  parse_aspect_ratio (a ++ ":" ++ b) =
    match custom_ratio (a ++ ":" ++ b) with
    | PyErr (ValueError _) => PyErr (ValueError ("Invalid aspect ratio: " ++ a ++ ":" ++ b))
    | r => r
    end.
Proof.
  intros Ha Hb Hl; rewrite (parse_aspect_ratio_custom _ Hl), (proj2 (split_two a b Ha Hb)).
  reflexivity.
Qed.

(** A non-preset token that does not split into exactly two parts at ":"
    (such as "1:2:3") is an invalid aspect ratio. *)
Theorem parse_aspect_ratio_not_two_parts t :
  dict_lookup (py_lower t) ASPECT_RATIOS = None ->
  length (py_split ":" t) <> 2%nat ->
  parse_aspect_ratio t = PyErr (ValueError ("Invalid aspect ratio: " ++ t)).
Proof.
  intros Hl Hn; rewrite (parse_aspect_ratio_custom t Hl).
  destruct (str_contains ":" t); [|reflexivity].
  unfold custom_ratio.
  destruct (unpack_two_floats (py_split ":" t)) as [[fa fb]|e] eqn:Eu; simpl.
  - destruct (unpack_two_floats_ok _ _ _ Eu) as (a & b & Hs & _).
    rewrite Hs in Hn; simpl in Hn; congruence.
  - destruct (unpack_two_floats_err _ _ Eu) as [m ->]; reflexivity.
Qed.

Lemma parse_aspect_ratio_not_two_parts_witness :
  parse_aspect_ratio "1:2:3" = PyErr (ValueError "Invalid aspect ratio: 1:2:3").
Proof. apply parse_aspect_ratio_not_two_parts; [reflexivity | simpl; discriminate]. Defined.

(** A ratio "W:H" whose larger side (W when W >= H, else H) is zero makes
    the division raise ZeroDivisionError, which [parse_aspect_ratio] does not
    catch: "0:0", "0:-1" and "-1:0" escape the resolver. *)
Theorem parse_aspect_ratio_zero_divisor a b wr hr :
  str_contains ":" a = false -> str_contains ":" b = false ->
  dict_lookup (py_lower (a ++ ":" ++ b)) ASPECT_RATIOS = None ->
  py_float a = PyOk wr -> py_float b = PyOk hr ->
  (PrimFloat.leb hr wr = true /\ PrimFloat.eqb wr zero = true \/
   PrimFloat.leb hr wr = false /\ PrimFloat.eqb hr zero = true) ->
  parse_aspect_ratio (a ++ ":" ++ b) = PyErr ZeroDivisionError.
Proof.
  intros Ha Hb Hl Hfa Hfb Hz; rewrite (parse_two a b Ha Hb Hl), (custom_ratio_two a b wr hr Ha Hb Hfa Hfb).
  unfold py_fdiv; destruct Hz as [[H1 H2]|[H1 H2]]; rewrite H1, H2; reflexivity.
Qed.

Lemma parse_aspect_ratio_zero_divisor_witness :
  parse_aspect_ratio "0:0" = PyErr ZeroDivisionError.
Proof.
  apply (parse_aspect_ratio_zero_divisor "0" "0" 0%float 0%float); try reflexivity.
  left; split; reflexivity.
Defined.

(** Swapping the sides of a non-preset ratio "W:H" with W > H swaps the
    dimensions: "W:H" gives (w, h) exactly when "H:W" gives (h, w). *)
Theorem parse_aspect_ratio_swap a b wr hr :
  str_contains ":" a = false -> str_contains ":" b = false ->
  dict_lookup (py_lower (a ++ ":" ++ b)) ASPECT_RATIOS = None ->
  dict_lookup (py_lower (b ++ ":" ++ a)) ASPECT_RATIOS = None ->
  py_float a = PyOk wr -> py_float b = PyOk hr ->
  PrimFloat.leb hr wr = true -> PrimFloat.leb wr hr = false ->
  forall w h, parse_aspect_ratio (a ++ ":" ++ b) = PyOk (w, h) <->
              parse_aspect_ratio (b ++ ":" ++ a) = PyOk (h, w).
Proof.
  intros Ha Hb Hl1 Hl2 Hfa Hfb H1 H2 w h.
  rewrite (parse_two a b Ha Hb Hl1), (parse_two b a Hb Ha Hl2),
    (custom_ratio_two a b wr hr Ha Hb Hfa Hfb), (custom_ratio_two b a hr wr Hb Ha Hfb Hfa), H1, H2.
  destruct (py_fdiv (PrimFloat.mul (float_of_Z 1024) hr) wr) as [q|e]; simpl;
    [destruct (py_int_of_float q) as [n|e]; simpl|];
    [split; intros H; inversion H; reflexivity | destruct e; split; discriminate ..].
Qed.

Lemma parse_aspect_ratio_swap_witness :
  parse_aspect_ratio "10:16" = PyOk (640, 1024).
Proof.
  apply (parse_aspect_ratio_swap "16" "10" 16%float 10%float); reflexivity.
Defined.

(** * Further properties of the CLI driver *)

Lemma all_strs_map ns : all_strs (map JStr ns) = PyOk ns.
Proof. induction ns as [|n ns IH]; simpl; [reflexivity|rewrite IH; reflexivity]. Qed.

Lemma le0_nil {A} (l : list A) : (length l <= 0)%nat -> l = [].
Proof. destruct l; simpl; [auto | lia]. Qed.

Lemma count_bind {A B} P n1 n2 (m : M A) (k : A -> M B) :
  count_at_most P n1 m -> (forall a, count_at_most P n2 (k a)) ->
  count_at_most P (n1 + n2) (bind m k).
Proof.
  unfold count_at_most; destruct m as [t [a|c|e]]; simpl; intros H1 H2; try lia.
  specialize (H2 a); destruct (k a) as [t' r]; simpl in *.
  rewrite filter_app, length_app; lia.
Qed.

Lemma count_bind0_l {A B} P n (m : M A) (k : A -> M B) :
  count_at_most P 0 m -> (forall a, count_at_most P n (k a)) -> count_at_most P n (bind m k).
Proof. apply (count_bind P 0 n). Qed.

Lemma count_bind0_r {A B} P n (m : M A) (k : A -> M B) :
  count_at_most P n m -> (forall a, count_at_most P 0 (k a)) -> count_at_most P n (bind m k).
Proof. intros H1 H2; rewrite <- (Nat.add_0_r n); apply (count_bind P n 0); auto. Qed.

Lemma count_for_each {A} P (l : list A) (body : A -> M unit) :
  (forall x, count_at_most P 0 (body x)) -> count_at_most P 0 (for_each l body).
Proof.
  intros H; induction l as [|x l IH]; simpl; [unfold count_at_most; simpl; lia|].
  apply count_bind0_l; auto.
Qed.

Lemma resolve_dims_count P a :
  (forall msg, P (Stderr_usage msg) = false) -> count_at_most P 0 (resolve_dims a).
Proof.
  intros H; unfold resolve_dims, count_at_most.
  destruct (aspect_ratio a) as [t|]; [|simpl; lia].
  destruct (truthy_str (Some t)); [|simpl; lia].
  destruct (truthy_int (width a) || truthy_int (height a)); [simpl; rewrite H; simpl; lia|].
  destruct (parse_aspect_ratio t) as [[? ?]|[]]; simpl; try rewrite H; simpl; lia.
Qed.

Ltac count_base :=
  solve [ unfold count_at_most; simpl; lia
        | match goal with
          | |- count_at_most _ _ (lift ?r) => destruct r; unfold count_at_most; simpl; lia
          | |- count_at_most _ _ (py_get ?d _ _) => destruct d; unfold count_at_most; simpl; lia
          | |- count_at_most _ _ (py_index0 ?d) =>
              destruct d as [| | | | [|[]] |[|]|]; unfold count_at_most; simpl; lia
          end ].

Ltac count_tac lem0 lem :=
  repeat first
    [ count_base
    | solve [apply lem0 | apply lem | apply resolve_dims_count; reflexivity]
    | apply count_for_each; intros ?
    | progress cbv beta
    | match goal with |- count_at_most _ 0 (bind _ _) => apply count_bind0_l; [|intros ?] end
    | apply count_bind0_l;
      [solve [apply lem0 | apply resolve_dims_count; reflexivity | count_base] | intros ?]
    | apply count_bind0_r; [solve [apply lem | count_base] | intros ?]
    | match goal with
      | |- count_at_most _ _ (match ?x with _ => _ end) => destruct x
      | |- count_at_most _ _ (bind (match ?x with _ => _ end) _) => destruct x
      end ].

Section ExtraCli.
Variable py_str : json -> string.

Lemma generate_image_counts w pr m kw :
  count_at_most is_network 1 (generate_image py_str w pr m kw) /\
  count_at_most is_file_write 0 (generate_image py_str w pr m kw).
Proof.
  unfold generate_image, count_at_most; cbv zeta.
  destruct (w_generate_response w) as [[[ok js tx]|]|j];
    [destruct ok; [destruct js|]| |]; simpl; lia.
Qed.

Lemma save_image_counts w d o i e :
  count_at_most is_network 0 (save_image py_str w d o i e) /\
  count_at_most is_file_write 1 (save_image py_str w d o i e).
Proof.
  unfold save_image, count_at_most; cbv zeta.
  destruct (b64decode w d); [destruct (w_can_write _ _)|]; simpl; lia.
Qed.

Lemma generate_cmd_net w a : count_at_most is_network 1 (generate_cmd py_str w a).
Proof.
  pose proof (fun pr m kw => proj1 (generate_image_counts w pr m kw)) as G.
  pose proof (fun d o i e => proj1 (save_image_counts w d o i e)) as S.
  unfold generate_cmd.
  count_tac S G.
Qed.

Lemma generate_cmd_writes_count w a : count_at_most is_file_write 1 (generate_cmd py_str w a).
Proof.
  pose proof (fun pr m kw => proj2 (generate_image_counts w pr m kw)) as G.
  pose proof (fun d o i e => proj2 (save_image_counts w d o i e)) as S.
  unfold generate_cmd.
  count_tac G S.
Qed.

Lemma list_models_cmd_counts w v :
  count_at_most is_network 1 (list_models_cmd py_str w v) /\
  count_at_most is_file_write 0 (list_models_cmd py_str w v) /\
  count_at_most is_generate_request 0 (list_models_cmd py_str w v).
Proof.
  pose proof I as N.
  unfold list_models_cmd; split; [|split]; count_tac N N.
Qed.

Lemma main_counts w :
  count_at_most is_network 1 (main py_str w) /\ count_at_most is_file_write 1 (main py_str w).
Proof.
  unfold main.
  destruct (negb (truthy_str (w_api_key w))); [unfold count_at_most; simpl; lia|].
  destruct (w_argv w) as [a|msg|]; [|unfold count_at_most; simpl; lia ..].
  destruct (list_models a).
  - destruct (list_models_cmd_counts w (verbose a)) as (H1 & H2 & _); split; auto.
    unfold count_at_most in *; lia.
  - split; [apply generate_cmd_net | apply generate_cmd_writes_count].
Qed.

Lemma run_main_filter P w :
  P (Stderr_traceback AttributeError) = false ->
  (forall e, P (Stderr_traceback e) = false) ->
  (length (filter P (fst (run_main py_str w))) <= length (filter P (fst (main py_str w))))%nat.
Proof.
  intros _ H; unfold run_main.
  destruct (main py_str w) as [t [u|c|e]]; simpl; auto.
  rewrite filter_app, length_app; simpl; rewrite H; simpl; lia.
Qed.

(** Every run makes at most one HTTP request and writes at most one file. *)
Theorem run_at_most_one_request_and_write w :
  (length (filter is_network (fst (run_main py_str w))) <= 1)%nat /\
  (length (filter is_file_write (fst (run_main py_str w))) <= 1)%nat.
Proof.
  destruct (main_counts w) as [H1 H2]; unfold count_at_most in *.
  split; eapply Nat.le_trans; try apply run_main_filter; eauto.
Qed.

(** With --list-models no generation request is made and no file is
    written, whatever the prompt and the other options; the exit status is
    0 or 1. *)
Theorem list_mode_no_generation w a :
  w_argv w = Argv_parsed a -> list_models a = true ->
  filter is_generate_request (fst (run_main py_str w)) = [] /\
  filter is_file_write (fst (run_main py_str w)) = [] /\
  (snd (run_main py_str w) = 0 \/ snd (run_main py_str w) = 1).
Proof.
  intros Ha Hl.
  destruct (list_models_cmd_counts w (verbose a)) as (_ & Hw & Hg).
  pose proof (list_models_cmd_exits py_str w (verbose a)) as He.
  assert (Hm : main py_str w = if negb (truthy_str (w_api_key w)) then
                 emit (Stderr "Error: VENICE_API_KEY environment variable is required") ;;; sys_exit 1
               else list_models_cmd py_str w (verbose a))
    by (unfold main; rewrite Ha, Hl; reflexivity).
  unfold run_main; rewrite Hm.
  destruct (negb (truthy_str (w_api_key w))); [simpl; auto|].
  unfold count_at_most in *.
  destruct (list_models_cmd py_str w (verbose a)) as [t [u|c|e]]; simpl in *.
  - apply le0_nil in Hw, Hg; auto.
  - apply le0_nil in Hw, Hg; auto.
  - rewrite !filter_app; simpl.
    apply le0_nil in Hw, Hg; rewrite Hw, Hg; auto.
Qed.


(** A run with the key set, parsed arguments and --list-models: the models
    request is made first; a failed request prints "Error fetching models"
    and exits 1; with --verbose the decoded JSON is dumped; otherwise a
    header line is followed by one "  - id (trait, ...)" line per model of
    [data], in order, "unknown" standing for a missing id and the
    parenthesis left out when there are no traits. *)
Theorem run_list_models w a :
  truthy_str (w_api_key w) = true -> w_argv w = Argv_parsed a -> list_models a = true ->
  (forall r, w_models_response w = Http_failed r ->
     run_main py_str w = ([Http_get_models; Stderr_exc "Error fetching models"], 1)) /\
  (forall data, w_models_response w = Http_ok data -> verbose a = true ->
     run_main py_str w = ([Http_get_models; Stdout_json_dump data], 0)) /\
  (forall l ms names, w_models_response w = Http_ok (JObj l) -> verbose a = false ->
     (dict_lookup "data" l = Some (JArr (map JObj ms)) \/ (dict_lookup "data" l = None /\ ms = [])) ->
     Forall2 model_traits ms names ->
     run_main py_str w =
       (Http_get_models :: Stdout "Available models:" ::
          map (fun mn => model_line py_str
                 (match dict_lookup "id" (fst mn) with Some v => v | None => JStr "unknown" end)
                 (snd mn)) (combine ms names), 0)).
Proof.
  intros Hk Ha Hl.
  assert (Hm : main py_str w = list_models_cmd py_str w (verbose a))
    by (unfold main; rewrite Hk, Ha, Hl; reflexivity).
  unfold run_main; rewrite Hm; unfold list_models_cmd.
  split; [intros r Hr; rewrite Hr; reflexivity|].
  split; [intros data Hr Hv; rewrite Hr, Hv; reflexivity|].
  intros l ms names Hr Hv Hd HF; rewrite Hr, Hv.
  match goal with |- context [for_each _ ?body] => set (bd := body) end.
  assert (E : forall ms names, Forall2 model_traits ms names ->
            for_each (map JObj ms) bd =
              (map (fun mn => model_line py_str
                      (match dict_lookup "id" (fst mn) with Some v => v | None => JStr "unknown" end)
                      (snd mn)) (combine ms names), Done tt)).
  { clear Hd HF; intros ms' names' HF.
    induction HF as [|m ns ms' names' Hmn HF IH]; [reflexivity|].
    cbn [map for_each combine]; rewrite IH; unfold bd; cbv beta.
    unfold model_traits in Hmn; simpl.
    destruct (dict_lookup "model_spec" m) as [[| | | | | |sp]|]; try contradiction Hmn.
    - destruct Hmn as [Ht|[Ht ->]]; cbn; rewrite Ht; cbn; [|reflexivity].
      destruct ns as [|n ns]; [reflexivity|].
      cbn; rewrite all_strs_map; reflexivity.
    - subst ns; reflexivity. }
  destruct Hd as [Hd|[Hd ->]]; simpl; rewrite Hd.
  - simpl; rewrite (E ms names HF); reflexivity.
  - inversion HF; reflexivity.
Qed.


(** A run whose request fails: after "Error generating image" the API's
    error body is printed only when the exception carries a response whose
    [ok] is true (a JSON body as "API Error: ...", or else the text as
    "Response: ..."); without a response, or with a response that is not
    ok, as for an HTTP error status, nothing more is printed. The exit
    status is 1. *)
Theorem run_http_error_details w a pr dims r :
  reaches_request w a pr dims -> w_generate_response w = Http_failed r ->
  let head := [Stdout ("Generating image with model '" ++ model a ++ "'...");
               Http_post_generate (request_payload a pr dims);
               Stderr_exc "Error generating image"] in
  ((r = None \/ exists resp, r = Some resp /\ resp_ok resp = false) -> run_main py_str w = (head, 1)) /\
  (forall resp j, r = Some resp -> resp_ok resp = true -> resp_json resp = Some j ->
     run_main py_str w = ((head ++ [Stderr ("API Error: " ++ py_str j)])%list, 1)) /\
  (forall resp, r = Some resp -> resp_ok resp = true -> resp_json resp = None ->
     run_main py_str w = ((head ++ [Stderr ("Response: " ++ resp_text resp)])%list, 1)).
Proof.
  destruct dims as [wd ht]; intros R G head.
  unfold run_main; rewrite (run_reaching_request py_str _ _ _ _ _ R); unfold generate_image; rewrite G.
  split; [intros [->|(resp & -> & Ho)]; [|rewrite Ho]; reflexivity|].
  split; [intros resp j -> Ho Hj | intros resp -> Ho Hj]; rewrite Ho, Hj; reflexivity.
Qed.


(** A non-ValueError exception of the resolver (ZeroDivisionError for
    "0:0", OverflowError for "1e308:1e308") is not turned into a usage
    error: [main] dies with a traceback, exit status 1, before any request. *)
Theorem run_resolver_exception w a pr t e :
  truthy_str (w_api_key w) = true -> w_argv w = Argv_parsed a -> list_models a = false ->
  prompt a = Some pr -> truthy_str (Some pr) = true ->
  aspect_ratio a = Some t -> truthy_str (Some t) = true ->
  truthy_int (width a) || truthy_int (height a) = false ->
  parse_aspect_ratio t = PyErr e -> (forall m, e <> ValueError m) ->
  run_main py_str w = ([Stderr_traceback e], 1).
Proof.
  intros Hk Ha Hl Hp Hpr Har Ht Hwh Hpa Hn; unfold run_main, main; rewrite Hk, Ha; simpl negb; cbv iota.
  rewrite Hl; unfold generate_cmd; rewrite Hp, Hpr; simpl negb; cbv iota.
  unfold resolve_dims; rewrite Har, Ht, Hwh, Hpa.
  destruct e; [exfalso; eapply Hn; reflexivity | reflexivity ..].
Qed.

End ExtraCli.

Lemma list_mode_no_generation_witness :
  filter is_file_write (fst (run_main str_of_json_string list_world)) = [].
Proof.
  apply (list_mode_no_generation str_of_json_string list_world list_args); reflexivity.
Defined.

(** * Further properties of the request builder *)

Lemma dict_set_keys_new {V} k (v : V) d :
  ~ In k (map fst d) -> map fst (dict_set k v d) = (map fst d ++ [k])%list.
Proof.
  induction d as [|[k' v'] d IH]; simpl; intros H; [reflexivity|].
  destruct (String.eqb k k') eqn:E.
  - apply String.eqb_eq in E; subst; exfalso; apply H; auto.
  - simpl; rewrite IH; auto.
Qed.

Lemma copy_optional_keys kwargs ks acc :
  NoDup ks -> (forall k, In k ks -> ~ In k (map fst acc)) ->
  map fst (fold_left (copy_optional kwargs) ks acc) =
    (map fst acc ++ filter (is_supplied kwargs) ks)%list.
Proof.
  revert acc; induction ks as [|k ks IH]; intros acc Hnd Hn; simpl; [rewrite app_nil_r; reflexivity|].
  inversion Hnd as [|? ? Hk Hnd']; subst.
  assert (Hn' : forall k', In k' ks -> ~ In k' (map fst acc)) by (intros k' Hk'; apply Hn; simpl; auto).
  assert (Hacc : ~ In k (map fst acc)) by (apply Hn; simpl; auto).
  assert (C : (copy_optional kwargs acc k = acc /\ is_supplied kwargs k = false) \/
              exists v, copy_optional kwargs acc k = dict_set k v acc /\ is_supplied kwargs k = true)
    by (unfold copy_optional, is_supplied, supplied;
        destruct (dict_lookup k kwargs) as [v|]; [destruct (is_none v)|]; eauto).
  destruct C as [[-> ->]|(v & -> & ->)]; rewrite IH; auto.
  - rewrite (dict_set_keys_new _ _ _ Hacc), <- app_assoc; reflexivity.
  - intros k' Hk'; rewrite (dict_set_keys_new _ _ _ Hacc), in_app_iff; simpl.
    intros [H|[H|[]]]; [apply (Hn' k' Hk' H) | subst; contradiction].
Qed.

(** The payload's keys, in order: the six fixed keys, then the supplied
    optional keys in the order of [optional_params]; so no key appears
    twice and no other keyword argument is ever sent. *)
Theorem build_payload_keys model prompt kwargs :
  map fst (build_payload model prompt kwargs) =
    (["model"; "prompt"; "format"; "hide_watermark"; "safe_mode"; "return_binary"] ++
     filter (is_supplied kwargs) optional_params)%list /\
  NoDup (map fst (build_payload model prompt kwargs)).
Proof.
  assert (E : map fst (build_payload model prompt kwargs) =
    (["model"; "prompt"; "format"; "hide_watermark"; "safe_mode"; "return_binary"] ++
     filter (is_supplied kwargs) optional_params)%list).
  { unfold build_payload; fold (copy_optional kwargs).
    rewrite copy_optional_keys; [reflexivity| |].
    - repeat constructor; simpl; intuition discriminate.
    - intros k Hk; simpl in Hk; simpl; intuition (subst; discriminate). }
  split; [exact E|]; rewrite E.
  apply NoDup_app; [repeat constructor; simpl; intuition discriminate| |].
  - apply NoDup_filter; repeat constructor; simpl; intuition discriminate.
  - intros x Hx Hy; apply filter_In in Hy as [Hy _].
    simpl in Hx, Hy; intuition (subst; discriminate).
Qed.


Lemma lookup_add_str k k' o p :
  dict_lookup k (add_str k' o p) =
    if String.eqb k k' then (if truthy_str o then option_map PStr o else dict_lookup k p)
    else dict_lookup k p.
Proof.
  unfold add_str; destruct o as [s|]; [|destruct (String.eqb k k'); reflexivity].
  cbn [truthy_str option_map].
  destruct (negb (String.eqb s "")); [rewrite dict_lookup_set|]; destruct (String.eqb k k'); reflexivity.
Qed.

Lemma lookup_add_int k k' o p :
  dict_lookup k (add_int k' o p) =
    if String.eqb k k' then (if truthy_int o then option_map PInt o else dict_lookup k p)
    else dict_lookup k p.
Proof.
  unfold add_int; destruct o as [z|]; [|destruct (String.eqb k k'); reflexivity].
  cbn [truthy_int option_map].
  destruct (negb (z =? 0)); [rewrite dict_lookup_set|]; destruct (String.eqb k k'); reflexivity.
Qed.

Lemma lookup_add_float k k' o p :
  dict_lookup k (add_float k' o p) =
    if String.eqb k k' then (if truthy_float o then option_map PFloat o else dict_lookup k p)
    else dict_lookup k p.
Proof.
  unfold add_float; destruct o as [f|]; [|destruct (String.eqb k k'); reflexivity].
  cbn [truthy_float option_map].
  destruct (negb (PrimFloat.eqb f zero)); [rewrite dict_lookup_set|]; destruct (String.eqb k k'); reflexivity.
Qed.

Ltac payload_key a wd ht :=
  unfold request_payload, build_payload; cbn [fst snd]; fold (copy_optional (gen_params_of a wd ht));
  rewrite copy_optional_lookup; unfold supplied, kw_get, gen_params_of;
  rewrite (lookup_add_str _ "style_preset"), (lookup_add_int _ "seed"), (lookup_add_float _ "cfg_scale"),
    (lookup_add_int _ "steps"), (lookup_add_int _ "height"), (lookup_add_int _ "width"),
    (lookup_add_str _ "negative_prompt"); simpl;
  try match goal with |- context [option_map _ ?o] => destruct o end;
  cbn [truthy_str truthy_int truthy_float option_map];
  try match goal with |- context [negb ?b] => destruct b end; reflexivity.

(** The request [main] sends: model, prompt, format and safe_mode come from
    the arguments (the defaults of [generate_image] are never used), and
    each optional field is sent exactly when its value is truthy, with that
    value. *)
Theorem request_payload_from_args a pr wd ht :
  let p := request_payload a pr (wd, ht) in
  dict_lookup "model" p = Some (PStr (model a)) /\
  dict_lookup "prompt" p = Some (PStr pr) /\
  dict_lookup "format" p = Some (PStr (format a)) /\
  dict_lookup "safe_mode" p = Some (PBool (safe_mode a)) /\
  dict_lookup "negative_prompt" p =
    (if truthy_str (negative_prompt a) then option_map PStr (negative_prompt a) else None) /\
  dict_lookup "width" p = (if truthy_int wd then option_map PInt wd else None) /\
  dict_lookup "height" p = (if truthy_int ht then option_map PInt ht else None) /\
  dict_lookup "steps" p = (if truthy_int (steps a) then option_map PInt (steps a) else None) /\
  dict_lookup "cfg_scale" p =
    (if truthy_float (cfg_scale a) then option_map PFloat (cfg_scale a) else None) /\
  dict_lookup "seed" p = (if truthy_int (seed a) then option_map PInt (seed a) else None) /\
  dict_lookup "style_preset" p =
    (if truthy_str (style_preset a) then option_map PStr (style_preset a) else None).
Proof. cbv zeta; repeat split; payload_key a wd ht. Qed.

(** * Witnesses of the CLI properties *)

Lemma run_list_models_witness :
  run_main str_of_json_string models_world =
    ([Http_get_models; Stdout "Available models:"; Stdout "  - flux-dev (fast, hd)";
      Stdout "  - unknown"], 0).
Proof.
  destruct (run_list_models str_of_json_string models_world list_args eq_refl eq_refl eq_refl)
    as (_ & _ & H).
  rewrite (H _ [[("id", JStr "flux-dev"); ("model_spec", JObj [("traits", JArr [JStr "fast"; JStr "hd"])])];
                [("model_spec", JObj [])]] [["fast"; "hd"]; []] eq_refl eq_refl (or_introl eq_refl));
    [reflexivity|].
  constructor; [simpl; left; reflexivity|].
  constructor; [simpl; right; split; reflexivity|].
  constructor.
Defined.

Lemma run_http_error_details_witness :
  run_main str_of_json_string http_error_world =
    ([Stdout "Generating image with model 'venice-sd35'...";
      Http_post_generate (request_payload (sample_args None None None) "a cat" (None, None));
      Stderr_exc "Error generating image"], 1).
Proof.
  apply (run_http_error_details str_of_json_string http_error_world (sample_args None None None)
           "a cat" (None, None) (Some {| resp_ok := false; resp_json := Some (JStr "quota exceeded");
                                         resp_text := "quota exceeded" |}));
    [repeat split | reflexivity |].
  right; eexists; split; reflexivity.
Defined.


Lemma run_resolver_exception_witness :
  run_main str_of_json_string zero_ratio_world = ([Stderr_traceback ZeroDivisionError], 1).
Proof.
  apply (run_resolver_exception str_of_json_string zero_ratio_world (sample_args (Some "0:0") None None)
           "a cat" "0:0"); try reflexivity.
  intros m; discriminate.
Defined.

(** * The timing quotient *)

(** An int total whose quotient by 1000 is beyond the float range raises
    OverflowError, as CPython's int true division does. *)
Lemma py_div_1000_overflow : py_div_1000 (JInt (2 * 10 ^ 311)) = PyErr OverflowError.
Proof. vm_compute; reflexivity. Qed.

Lemma py_div_1000_ms : py_div_1000 (JInt 1500) = PyOk 1.5%float.
Proof. vm_compute; reflexivity. Qed.
